(** * gh run view: the [view] subcommand of [pkg/cmd/run]

    A shallow embedding of [pkg/cmd/run/view/view.go] and the properties its
    specification states about it.  The command resolves a run identifier,
    fetches the run, its jobs and their annotations through the collaborators
    of package [shared], and renders a summary on the output stream.

    Go values are embedded as follows.
      - [string] is [String.string]; a Go [int] is a [Z].
      - [(T, error)] results are [result T]; a nil [error] is [None].
      - Writes to [opts.IO.Out], the progress indicator and the calls made
        to collaborators are threaded through a state monad [M] over
        [World]. *)

From Stdlib Require Import String Ascii List ZArith Bool DecimalString Lia.
Import ListNotations.
Open Scope string_scope.

(** ** Strings *)

(** The line feed, written "\n" in the Go source. *)
Definition LF : string := String "010"%char EmptyString.

Lemma append_assoc (a b c : string) : (a ++ b) ++ c = a ++ (b ++ c).
Proof.
  induction a as [| x a IH]; simpl; [reflexivity | now rewrite IH].
Qed.

Lemma append_nil_r (a : string) : a ++ "" = a.
Proof.
  induction a as [| x a IH]; simpl; [reflexivity | now rewrite IH].
Qed.

(** Concatenation of the pieces written by a loop, one per element. *)
Fixpoint concat_map {A : Type} (f : A -> string) (l : list A) : string :=
  match l with
  | [] => ""
  | x :: l' => f x ++ concat_map f l'
  end.

(** ** Package fmt *)

Module fmt.

(** An operand of a formatting call: the file passes strings and ints. *)
Inductive arg : Type :=
| ArgString (s : string)
| ArgInt (n : Z).

(** [%d] of an integer. *)
Definition itoa (n : Z) : string := NilZero.string_of_int (Z.to_int n).

Definition type_name (a : arg) : string :=
  match a with
  | ArgString _ => "string"
  | ArgInt _ => "int"
  end.

(** The operand under [%v]. *)
Definition default_format (a : arg) : string :=
  match a with
  | ArgString s => s
  | ArgInt n => itoa n
  end.

(** One verb applied to one operand.  [%s] takes a string, [%d] an int,
    [%v] either; a verb the operand does not take is printed in Go's
    bad-verb form [%!verb(type=value)].  Flags, widths and the other
    verbs of package fmt do not occur in the file and are not
    interpreted. *)
Definition fmt_arg (verb : ascii) (a : arg) : string :=
  match a with
  | ArgString s =>
      if (Ascii.eqb verb "s" || Ascii.eqb verb "v")%char then s
      else "%!" ++ String verb ("(string=" ++ s ++ ")")
  | ArgInt n =>
      if (Ascii.eqb verb "d" || Ascii.eqb verb "v")%char then itoa n
      else "%!" ++ String verb ("(int=" ++ itoa n ++ ")")
  end.

Fixpoint extra_list (args : list arg) : string :=
  match args with
  | [] => ""
  | [a] => type_name a ++ "=" ++ default_format a
  | a :: args' => type_name a ++ "=" ++ default_format a ++ ", " ++ extra_list args'
  end.

(** Operands left over when the format is exhausted. *)
Definition extra (args : list arg) : string :=
  match args with
  | [] => ""
  | _ => "%!(EXTRA " ++ extra_list args ++ ")"
  end.

(** [fmt.Sprintf]: text is copied, [%%] is a percent sign, a verb consumes
    the next operand, a verb without operand prints [%!verb(MISSING)] and
    a trailing [%] prints [%!(NOVERB)]. *)
Fixpoint Sprintf (format : string) (args : list arg) : string :=
  match format with
  | EmptyString => extra args
  | String c rest =>
      if Ascii.eqb c "%" then
        match rest with
        | EmptyString => "%!(NOVERB)"
        | String verb rest' =>
            if Ascii.eqb verb "%" then String "%" (Sprintf rest' args)
            else
              match args with
              | [] => "%!" ++ String verb ("(MISSING)" ++ Sprintf rest' [])
              | a :: args' => fmt_arg verb a ++ Sprintf rest' args'
              end
        end
      else String c (Sprintf rest args)
  end.

(** [fmt.Sprintln]: the operands separated by spaces, then a line feed. *)
Definition Sprintln (a : list string) : string := String.concat " " a ++ LF.

End fmt.
Import fmt.

(** ** Errors *)

(** The error values of the command.  [Errorf format err] is
    [fmt.Errorf(format, err)] for a format that ends in [%w]; [FlagError] and
    [SilentError] are those of package [cmdutil]. *)
Inductive error : Type :=
| errors_New (text : string)
| Errorf (format : string) (err : error)
| FlagError (Err : error)
| SilentError.

Inductive result (T : Type) : Type :=
| Ok (v : T)
| Err (err : error).
Arguments Ok {T} v.
Arguments Err {T} err.

(** ** Package time *)

Module time.

(** An instant and a duration, both in nanoseconds. *)
Definition Time : Type := Z.
Definition Duration : Type := Z.

Definition minDuration : Z := - 2 ^ 63.
Definition maxDuration : Z := 2 ^ 63 - 1.

(** [t.Sub(u)]: the difference, held at the bounds of [Duration]. *)
Definition Sub (t u : Time) : Duration :=
  Z.max minDuration (Z.min maxDuration (t - u)).

End time.

(** ** Package iostreams *)

Module ColorScheme.

(** The styling functions of a colour scheme that the file calls. *)
Record t : Type := {
  Bold : string -> string;
  Gray : string -> string;
  Cyan : string -> string;
  FailureIcon : string
}.

(** Modelled from the spec: [Cyanf] and [Grayf] of the colour scheme are
    not in the source file; the spec writes their results as cyan(...) and
    as a grayed line of the formatted operands. *)
Definition Cyanf (cs : t) (format : string) (args : list arg) : string :=
  Cyan cs (Sprintf format args).

Definition Grayf (cs : t) (format : string) (args : list arg) : string :=
  Gray cs (Sprintf format args).

End ColorScheme.

Module IOStreams.

Record t : Type := {
  IsStdoutTTY : bool;
  IsStdinTTY : bool;
  ColorScheme : ColorScheme.t
}.

End IOStreams.

(** ** Package shared: the data *)

Definition Status : Type := string.
Definition Conclusion : Type := string.

(** Modelled from the spec: the constant [shared.Failure] is not in the
    source file; the spec gives it as the conclusion "failure". *)
Definition Failure : Conclusion := "failure".

Module Step.
Record t : Type := {
  Name : string;
  Status : Status;
  Conclusion : Conclusion
}.
End Step.

Module Job.
Record t : Type := {
  ID : Z;
  Name : string;
  Status : Status;
  Conclusion : Conclusion;
  Steps : list Step.t
}.
End Job.

Module Run.
Record t : Type := {
  ID : Z;
  Name : string;
  HeadBranch : string;
  Event : string;
  CreatedAt : time.Time;
  Status : Status;
  Conclusion : Conclusion;
  URL : string
}.
End Run.

Module Annotation.
Record t : Type := {
  JobName : string;
  Message : string;
  Path : string;
  Level : string;
  StartLine : Z
}.
End Annotation.

(** ** The world of the command *)

(** A call to a collaborator, as a test double would record it. *)
Inductive Call : Type :=
| CallHttpClient
| CallBaseRepo
| CallPromptForRun
| CallGetRun (runID : string)
| CallGetJobs (run : Run.t)
| CallGetAnnotations (job : Job.t).

Record World : Type := {
  out : string;          (* the bytes written to opts.IO.Out *)
  progress : bool;       (* the progress indicator is running *)
  calls : list Call      (* the collaborator calls made, oldest first *)
}.

Definition M (A : Type) : Type := World -> A * World.

Definition ret {A : Type} (a : A) : M A := fun w => (a, w).

Definition bind {A B : Type} (m : M A) (k : A -> M B) : M B :=
  fun w => let (a, w') := m w in k a w'.

Declare Scope go_scope.
Delimit Scope go_scope with go.
Notation "x <- m ;; k" := (bind m (fun x => k))
  (at level 61, m at next level, right associativity) : go_scope.
Notation "m ;; k" := (bind m (fun _ => k))
  (at level 61, right associativity) : go_scope.
Open Scope go_scope.

Definition write (s : string) : M unit :=
  fun w => (tt, {| out := out w ++ s; progress := progress w; calls := calls w |}).

Definition Fprintln (a : list string) : M unit := write (Sprintln a).

Definition Fprintf (format : string) (args : list arg) : M unit :=
  write (Sprintf format args).

Definition StartProgressIndicator : M unit :=
  fun w => (tt, {| out := out w; progress := true; calls := calls w |}).

Definition StopProgressIndicator : M unit :=
  fun w => (tt, {| out := out w; progress := false; calls := calls w |}).

(** Invoking a collaborator: the call is recorded and its result returned. *)
Definition call {T : Type} (c : Call) (r : T) : M T :=
  fun w => (r, {| out := out w; progress := progress w; calls := calls w ++ [c] |}).

(** [for _, x := range l { body }] *)
Fixpoint for_range {A : Type} (l : list A) (body : A -> M unit) : M unit :=
  match l with
  | [] => ret tt
  | x :: l' => body x ;; for_range l' body
  end.

(** ** The command *)

Section View.

(** The collaborators of packages [api], [ghrepo], [shared] and [utils],
    which the command reaches through narrow interfaces. *)
Context {HTTPClient APIClient Repo : Type}.
Variable NewClientFromHTTP : HTTPClient -> APIClient.
Variable PromptForRun : ColorScheme.t -> APIClient -> Repo -> result string.
Variable GetRun : APIClient -> Repo -> string -> result Run.t.
Variable GetJobs : APIClient -> Repo -> Run.t -> result (list Job.t).
Variable GetAnnotations : APIClient -> Repo -> Job.t -> result (list Annotation.t).
Variable Symbol : ColorScheme.t -> Status -> Conclusion -> string.
Variable AnnotationSymbol : Annotation.t -> ColorScheme.t -> string.
Variable IsFailureState : Conclusion -> bool.
Variable FuzzyAgo : time.Duration -> string.

Record ViewOptions : Type := {
  HttpClient : unit -> result HTTPClient;
  IO : IOStreams.t;
  BaseRepo : unit -> result Repo;

  RunID : string;
  Verbose : bool;
  ExitStatus : bool;

  Prompt : bool;
  ShowProgress : bool;

  Now : unit -> time.Time
}.

(** What [cmdutil.Factory] hands to the command. *)
Record Factory : Type := {
  Factory_IOStreams : IOStreams.t;
  Factory_HttpClient : unit -> result HTTPClient;
  Factory_BaseRepo : unit -> result Repo
}.

(** Assignments to the fields of [opts]. *)
Definition set_BaseRepo (opts : ViewOptions) (v : unit -> result Repo) : ViewOptions :=
  {| HttpClient := HttpClient opts; IO := IO opts; BaseRepo := v;
     RunID := RunID opts; Verbose := Verbose opts; ExitStatus := ExitStatus opts;
     Prompt := Prompt opts; ShowProgress := ShowProgress opts; Now := Now opts |}.

Definition set_ShowProgress (opts : ViewOptions) (v : bool) : ViewOptions :=
  {| HttpClient := HttpClient opts; IO := IO opts; BaseRepo := BaseRepo opts;
     RunID := RunID opts; Verbose := Verbose opts; ExitStatus := ExitStatus opts;
     Prompt := Prompt opts; ShowProgress := v; Now := Now opts |}.

Definition set_RunID (opts : ViewOptions) (v : string) : ViewOptions :=
  {| HttpClient := HttpClient opts; IO := IO opts; BaseRepo := BaseRepo opts;
     RunID := v; Verbose := Verbose opts; ExitStatus := ExitStatus opts;
     Prompt := Prompt opts; ShowProgress := ShowProgress opts; Now := Now opts |}.

Definition set_Prompt (opts : ViewOptions) (v : bool) : ViewOptions :=
  {| HttpClient := HttpClient opts; IO := IO opts; BaseRepo := BaseRepo opts;
     RunID := RunID opts; Verbose := Verbose opts; ExitStatus := ExitStatus opts;
     Prompt := v; ShowProgress := ShowProgress opts; Now := Now opts |}.

(** [titleForRun] *)
Definition titleForRun (cs : ColorScheme.t) (run : Run.t) : string :=
  let prID := "" in
  Sprintf "%s %s%s"
    [ArgString (ColorScheme.Bold cs (Run.HeadBranch run));
     ArgString (Run.Name run);
     ArgString prID].

(** [renderRun] *)
Definition renderRun (opts : ViewOptions) (run : Run.t) (jobs : list Job.t)
    (annotations : list Annotation.t) : M (option error) :=
  let cs := IOStreams.ColorScheme (IO opts) in

  let title := titleForRun cs run in
  let symbol := Symbol cs (Run.Status run) (Run.Conclusion run) in
  let id := ColorScheme.Cyanf cs "%d" [ArgInt (Run.ID run)] in

  Fprintln [] ;;
  Fprintf ("%s %s · %s" ++ LF) [ArgString symbol; ArgString title; ArgString id] ;;

  let ago := time.Sub (Now opts tt) (Run.CreatedAt run) in

  Fprintf ("Triggered via %s %s" ++ LF) [ArgString (Run.Event run); ArgString (FuzzyAgo ago)] ;;
  Fprintln [] ;;

  if (length jobs =? 0)%nat && String.eqb (Run.Conclusion run) Failure then
    Fprintf ("%s %s" ++ LF)
      [ArgString (ColorScheme.FailureIcon cs);
       ArgString (ColorScheme.Bold cs "This run likely failed because of a workflow file issue.")] ;;

    Fprintln [] ;;
    Fprintf ("For more information, see: %s" ++ LF) [ArgString (ColorScheme.Bold cs (Run.URL run))] ;;

    if ExitStatus opts && IsFailureState (Run.Conclusion run) then
      ret (Some SilentError)
    else
      ret None
  else

  Fprintln [ColorScheme.Bold cs "JOBS"] ;;

  for_range jobs (fun job =>
    let symbol := Symbol cs (Job.Status job) (Job.Conclusion job) in
    let id := ColorScheme.Cyanf cs "%d" [ArgInt (Job.ID job)] in
    Fprintf ("%s %s (ID %s)" ++ LF) [ArgString symbol; ArgString (Job.Name job); ArgString id] ;;
    if Verbose opts || IsFailureState (Job.Conclusion job) then
      for_range (Job.Steps job) (fun step =>
        Fprintf ("  %s %s" ++ LF)
          [ArgString (Symbol cs (Step.Status step) (Step.Conclusion step));
           ArgString (Step.Name step)])
    else
      ret tt) ;;

  (if (0 <? length annotations)%nat then
     Fprintln [] ;;
     Fprintln [ColorScheme.Bold cs "ANNOTATIONS"] ;;

     for_range annotations (fun a =>
       Fprintf ("%s %s" ++ LF) [ArgString (AnnotationSymbol a cs); ArgString (Annotation.Message a)] ;;
       Fprintln [ColorScheme.Grayf cs ("%s: %s#%d" ++ LF)
                   [ArgString (Annotation.JobName a);
                    ArgString (Annotation.Path a);
                    ArgInt (Annotation.StartLine a)]])
   else
     ret tt) ;;

  Fprintln [] ;;
  Fprintln ["For more information about a job, try: gh job view <job-id>"] ;;
  Fprintf (ColorScheme.Gray cs ("view this run on GitHub: %s" ++ LF)) [ArgString (Run.URL run)] ;;

  if ExitStatus opts && IsFailureState (Run.Conclusion run) then
    ret (Some SilentError)
  else

  ret None.

(** The annotation loop of [runView]: the jobs are visited in order, each
    job's annotations are appended, and the first error leaves the loop.
    The result is the pair [(annotations, annotationErr)] after the loop. *)
Fixpoint fetchAnnotations (client : APIClient) (repo : Repo) (jobs : list Job.t)
    (annotations : list Annotation.t) : M (list Annotation.t * option error) :=
  match jobs with
  | [] => ret (annotations, None)
  | job :: jobs' =>
      r <- call (CallGetAnnotations job) (GetAnnotations client repo job) ;;
      match r with
      | Err annotationErr => ret (annotations, Some annotationErr)
      | Ok as_ => fetchAnnotations client repo jobs' (annotations ++ as_)
      end
  end.

(** [runView] *)
Definition runView (opts : ViewOptions) : M (option error) :=
  c <- call CallHttpClient (HttpClient opts tt) ;;
  match c with
  | Err err => ret (Some (Errorf "failed to create http client: %w" err))
  | Ok c =>
  let client := NewClientFromHTTP c in

  repo <- call CallBaseRepo (BaseRepo opts tt) ;;
  match repo with
  | Err err => ret (Some (Errorf "failed to determine base repo: %w" err))
  | Ok repo =>

  runID <- (if Prompt opts then
              let cs := IOStreams.ColorScheme (IO opts) in
              call CallPromptForRun (PromptForRun cs client repo)
            else
              ret (Ok (RunID opts))) ;;
  match runID with
  | Err err => ret (Some err)
  | Ok runID =>

  (if ShowProgress opts then StartProgressIndicator else ret tt) ;;
  run <- call (CallGetRun runID) (GetRun client repo runID) ;;
  match run with
  | Err err => ret (Some (Errorf "failed to get run: %w" err))
  | Ok run =>

  jobs <- call (CallGetJobs run) (GetJobs client repo run) ;;
  match jobs with
  | Err err => ret (Some (Errorf "failed to get jobs: %w" err))
  | Ok jobs =>

  fetched <- fetchAnnotations client repo jobs [] ;;
  match fetched with
  | (_, Some annotationErr) =>
      ret (Some (Errorf "failed to get annotations: %w" annotationErr))
  | (annotations, None) =>

  (if ShowProgress opts then StopProgressIndicator else ret tt) ;;
  err <- renderRun opts run jobs annotations ;;
  match err with
  | Some err => ret (Some err)
  | None => ret None
  end
  end end end end end end.

(** The [RunE] closure of [NewCmdView].  [opts] is the options value the
    closure captured, with [Verbose] and [ExitStatus] as the flags set
    them; [runF], when given, replaces [runView] (the tests pass one). *)
Definition NewCmdView_RunE (f : Factory) (runF : option (ViewOptions -> M (option error)))
    (opts : ViewOptions) (args : list string) : M (option error) :=
  let run := fun opts => match runF with
                         | Some runF => runF opts
                         | None => runView opts
                         end in
  let opts := set_BaseRepo opts (Factory_BaseRepo f) in

  let terminal := IOStreams.IsStdoutTTY (IO opts) && IOStreams.IsStdinTTY (IO opts) in
  let opts := set_ShowProgress opts terminal in

  match args with
  | arg0 :: _ => run (set_RunID opts arg0)
  | [] =>
      if negb terminal then
        ret (Some (FlagError (errors_New "expected a run ID")))
      else
        run (set_Prompt opts true)
  end.

(** ** The rendered text, piece by piece *)

(** The header line of a run; [spec_run_header_line] is the line as the
    specification words it, with the run name right after the branch. *)
Definition run_header_line (cs : ColorScheme.t) (run : Run.t) : string :=
  Symbol cs (Run.Status run) (Run.Conclusion run) ++ " " ++
  ColorScheme.Bold cs (Run.HeadBranch run) ++ " " ++ Run.Name run ++
  " · " ++ ColorScheme.Cyan cs (itoa (Run.ID run)).

Definition spec_run_header_line (cs : ColorScheme.t) (run : Run.t) : string :=
  Symbol cs (Run.Status run) (Run.Conclusion run) ++ " " ++
  ColorScheme.Bold cs (Run.HeadBranch run) ++ Run.Name run ++
  " · " ++ ColorScheme.Cyan cs (itoa (Run.ID run)).

Definition triggered_line (opts : ViewOptions) (run : Run.t) : string :=
  "Triggered via " ++ Run.Event run ++ " " ++
  FuzzyAgo (time.Sub (Now opts tt) (Run.CreatedAt run)).

(** Everything written before the branch on the number of jobs. *)
Definition header_text (opts : ViewOptions) (run : Run.t) : string :=
  let cs := IOStreams.ColorScheme (IO opts) in
  LF ++ run_header_line cs run ++ LF ++ triggered_line opts run ++ LF ++ LF.

Definition workflow_issue_text (cs : ColorScheme.t) (run : Run.t) : string :=
  ColorScheme.FailureIcon cs ++ " " ++
  ColorScheme.Bold cs "This run likely failed because of a workflow file issue." ++ LF ++
  LF ++
  "For more information, see: " ++ ColorScheme.Bold cs (Run.URL run) ++ LF.

Definition job_line (cs : ColorScheme.t) (job : Job.t) : string :=
  Symbol cs (Job.Status job) (Job.Conclusion job) ++ " " ++ Job.Name job ++
  " (ID " ++ ColorScheme.Cyan cs (itoa (Job.ID job)) ++ ")" ++ LF.

Definition step_line (cs : ColorScheme.t) (step : Step.t) : string :=
  "  " ++ Symbol cs (Step.Status step) (Step.Conclusion step) ++ " " ++
  Step.Name step ++ LF.

(** What one job adds to the output: its line, then its steps when the
    run is shown verbosely or the job failed. *)
Definition job_text (opts : ViewOptions) (job : Job.t) : string :=
  let cs := IOStreams.ColorScheme (IO opts) in
  job_line cs job ++
  (if Verbose opts || IsFailureState (Job.Conclusion job)
   then concat_map (step_line cs) (Job.Steps job)
   else "").

(** What one annotation adds to the output; [spec_annotation_text] is the
    pair of lines as the specification words it. *)
Definition annotation_text (cs : ColorScheme.t) (a : Annotation.t) : string :=
  AnnotationSymbol a cs ++ " " ++ Annotation.Message a ++ LF ++
  ColorScheme.Gray cs
    (Annotation.JobName a ++ ": " ++ Annotation.Path a ++ "#" ++
     itoa (Annotation.StartLine a) ++ LF) ++ LF.

Definition spec_annotation_text (cs : ColorScheme.t) (a : Annotation.t) : string :=
  AnnotationSymbol a cs ++ " " ++ Annotation.Message a ++ LF ++
  ColorScheme.Gray cs
    (Annotation.JobName a ++ ": " ++ Annotation.Path a ++ "#" ++
     itoa (Annotation.StartLine a)) ++ LF.

(** The ANNOTATIONS section for a given rendering of one annotation. *)
Definition annotations_section (cs : ColorScheme.t)
    (entry : ColorScheme.t -> Annotation.t -> string)
    (annotations : list Annotation.t) : string :=
  match annotations with
  | [] => ""
  | _ :: _ =>
      LF ++ ColorScheme.Bold cs "ANNOTATIONS" ++ LF ++
      concat_map (entry cs) annotations
  end.

Definition footer_text (cs : ColorScheme.t) (run : Run.t) : string :=
  LF ++
  "For more information about a job, try: gh job view <job-id>" ++ LF ++
  Sprintf (ColorScheme.Gray cs ("view this run on GitHub: %s" ++ LF))
    [ArgString (Run.URL run)].

(** The value [renderRun] returns at both of its exits. *)
Definition exit_signal (opts : ViewOptions) (run : Run.t) : option error :=
  if ExitStatus opts && IsFailureState (Run.Conclusion run)
  then Some SilentError else None.

(** The condition of the branch for a run without jobs that failed. *)
Definition workflow_issue (run : Run.t) (jobs : list Job.t) : bool :=
  (length jobs =? 0)%nat && String.eqb (Run.Conclusion run) Failure.

(** ** Programs that only write *)

(** The world after [s] more bytes went to the output. *)
Definition emit (w : World) (s : string) : World :=
  {| out := out w ++ s; progress := progress w; calls := calls w |}.

(** [m] returns [a] and writes [s], whatever the world it starts in. *)
Definition emits {A : Type} (m : M A) (a : A) (s : string) : Prop :=
  forall w, m w = (a, emit w s).

Lemma emit_nil (w : World) : emit w "" = w.
Proof.
  destruct w as [o p c]; unfold emit; simpl.
  now rewrite append_nil_r.
Qed.

Lemma emit_emit (w : World) (s t : string) : emit (emit w s) t = emit w (s ++ t).
Proof.
  unfold emit; simpl. now rewrite append_assoc.
Qed.

Lemma emits_ret {A : Type} (a : A) : emits (ret a) a "".
Proof.
  intros w. unfold ret. now rewrite emit_nil.
Qed.

Lemma emits_write (s : string) : emits (write s) tt s.
Proof.
  intros w. reflexivity.
Qed.

Lemma emits_bind {A B : Type} (m : M A) (k : A -> M B) (a : A) (b : B) (s t : string) :
  emits m a s -> emits (k a) b t -> emits (bind m k) b (s ++ t).
Proof.
  intros Hm Hk w. unfold bind. rewrite Hm, Hk. now rewrite emit_emit.
Qed.

Lemma emits_eq {A : Type} (m : M A) (a : A) (s t : string) :
  emits m a s -> s = t -> emits m a t.
Proof.
  intros H <-. exact H.
Qed.

Lemma emits_for_range {A : Type} (body : A -> M unit) (f : A -> string) (l : list A) :
  (forall x, emits (body x) tt (f x)) ->
  emits (for_range l body) tt (concat_map f l).
Proof.
  intros Hbody. induction l as [| x l IH]; simpl.
  - apply emits_ret.
  - eapply emits_bind; [apply Hbody | exact IH].
Qed.

Lemma emits_Fprintln (a : list string) : emits (Fprintln a) tt (Sprintln a).
Proof.
  apply emits_write.
Qed.

Lemma emits_Fprintf (format : string) (args : list arg) :
  emits (Fprintf format args) tt (Sprintf format args).
Proof.
  apply emits_write.
Qed.

(** The formats of the file, applied to their operands. *)
Lemma Sprintf_title (branch name prID : string) :
  Sprintf "%s %s%s" [ArgString branch; ArgString name; ArgString prID]
  = branch ++ " " ++ name ++ prID ++ "".
Proof. reflexivity. Qed.

Lemma Sprintf_header (symbol title id : string) :
  Sprintf ("%s %s · %s" ++ LF) [ArgString symbol; ArgString title; ArgString id]
  = symbol ++ " " ++ title ++ " · " ++ id ++ LF.
Proof. reflexivity. Qed.

Lemma Sprintf_two (a b : string) :
  Sprintf ("%s %s" ++ LF) [ArgString a; ArgString b] = a ++ " " ++ b ++ LF.
Proof. reflexivity. Qed.

Lemma Sprintf_triggered (event ago : string) :
  Sprintf ("Triggered via %s %s" ++ LF) [ArgString event; ArgString ago]
  = "Triggered via " ++ event ++ " " ++ ago ++ LF.
Proof. reflexivity. Qed.

Lemma Sprintf_see (url : string) :
  Sprintf ("For more information, see: %s" ++ LF) [ArgString url]
  = "For more information, see: " ++ url ++ LF.
Proof. reflexivity. Qed.

Lemma Sprintf_job (symbol name id : string) :
  Sprintf ("%s %s (ID %s)" ++ LF) [ArgString symbol; ArgString name; ArgString id]
  = symbol ++ " " ++ name ++ " (ID " ++ id ++ ")" ++ LF.
Proof. reflexivity. Qed.

Lemma Sprintf_step (symbol name : string) :
  Sprintf ("  %s %s" ++ LF) [ArgString symbol; ArgString name]
  = "  " ++ symbol ++ " " ++ name ++ LF.
Proof. reflexivity. Qed.

Lemma Sprintf_d (n : Z) : Sprintf "%d" [ArgInt n] = itoa n ++ "".
Proof. reflexivity. Qed.

Lemma Sprintf_annotation_place (job path : string) (line : Z) :
  Sprintf ("%s: %s#%d" ++ LF) [ArgString job; ArgString path; ArgInt line]
  = job ++ ": " ++ path ++ "#" ++ itoa line ++ LF.
Proof. reflexivity. Qed.

Lemma Sprintln_nil : Sprintln [] = LF.
Proof. reflexivity. Qed.

Lemma Sprintln_one (s : string) : Sprintln [s] = s ++ LF.
Proof. reflexivity. Qed.

Create Rewrite HintDb go_fmt.
#[local] Hint Rewrite Sprintf_title Sprintf_header Sprintf_two Sprintf_triggered Sprintf_see
  Sprintf_job Sprintf_step Sprintf_d Sprintf_annotation_place Sprintln_nil Sprintln_one
  : go_fmt.

(** Strings are compared after the formats are applied and the appends
    nested to the right. *)
Ltac string_norm :=
  unfold ColorScheme.Cyanf, ColorScheme.Grayf;
  autorewrite with go_fmt;
  repeat first
    [ rewrite append_assoc
    | rewrite append_nil_r
    | progress cbn [String.append LF] ].

Lemma titleForRun_eq (cs : ColorScheme.t) (run : Run.t) :
  titleForRun cs run = ColorScheme.Bold cs (Run.HeadBranch run) ++ " " ++ Run.Name run.
Proof.
  unfold titleForRun. string_norm. reflexivity.
Qed.

(** ** What [renderRun] writes and returns *)

Lemma renderRun_workflow_issue (opts : ViewOptions) (run : Run.t) (jobs : list Job.t)
    (annotations : list Annotation.t) :
  workflow_issue run jobs = true ->
  emits (renderRun opts run jobs annotations) (exit_signal opts run)
    (header_text opts run ++ workflow_issue_text (IOStreams.ColorScheme (IO opts)) run).
Proof.
  intros Hb. unfold renderRun. unfold workflow_issue in Hb. rewrite Hb.
  eapply emits_eq.
  - repeat (eapply emits_bind; [first [apply emits_Fprintln | apply emits_Fprintf] |]).
    unfold exit_signal.
    destruct (ExitStatus opts && IsFailureState (Run.Conclusion run)); apply emits_ret.
  - unfold header_text, run_header_line, triggered_line, workflow_issue_text.
    rewrite titleForRun_eq. string_norm. reflexivity.
Qed.

Lemma renderRun_normal (opts : ViewOptions) (run : Run.t) (jobs : list Job.t)
    (annotations : list Annotation.t) :
  workflow_issue run jobs = false ->
  let cs := IOStreams.ColorScheme (IO opts) in
  emits (renderRun opts run jobs annotations) (exit_signal opts run)
    (header_text opts run ++
     ColorScheme.Bold cs "JOBS" ++ LF ++
     concat_map (job_text opts) jobs ++
     annotations_section cs annotation_text annotations ++
     footer_text cs run).
Proof.
  intros Hb cs. unfold renderRun. unfold workflow_issue in Hb. rewrite Hb.
  fold cs.
  eapply emits_eq.
  - do 5 (eapply emits_bind; [first [apply emits_Fprintln | apply emits_Fprintf] |]).
    eapply emits_bind.
    { apply (emits_for_range _ (job_text opts)). intros job.
      eapply emits_eq.
      - eapply emits_bind; [apply emits_Fprintf |].
        instantiate (1 := if Verbose opts || IsFailureState (Job.Conclusion job)
                          then concat_map (step_line cs) (Job.Steps job) else "").
        destruct (Verbose opts || IsFailureState (Job.Conclusion job)).
        + apply (emits_for_range _ (step_line cs)). intros step.
          eapply emits_eq; [apply emits_Fprintf |].
          unfold step_line. string_norm. reflexivity.
        + apply emits_ret.
      - unfold job_text, job_line. fold cs. string_norm. reflexivity. }
    eapply emits_bind.
    { instantiate (1 := annotations_section cs annotation_text annotations).
      destruct annotations as [| a l].
      - apply emits_ret.
      - cbn [length Nat.ltb Nat.leb]. eapply emits_eq.
        + do 2 (eapply emits_bind; [apply emits_Fprintln |]).
          apply (emits_for_range _ (annotation_text cs)). intros a'.
          eapply emits_eq.
          * eapply emits_bind; [apply emits_Fprintf | apply emits_Fprintln].
          * unfold annotation_text. string_norm. reflexivity.
        + unfold annotations_section. string_norm. reflexivity. }
    do 3 (eapply emits_bind; [first [apply emits_Fprintln | apply emits_Fprintf] |]).
    unfold exit_signal.
    destruct (ExitStatus opts && IsFailureState (Run.Conclusion run)); apply emits_ret.
  - unfold header_text, run_header_line, triggered_line, footer_text. fold cs.
    rewrite titleForRun_eq. string_norm. reflexivity.
Qed.

(** The two exits of [renderRun] as equations on the whole result. *)
Lemma renderRun_eq (opts : ViewOptions) (run : Run.t) (jobs : list Job.t)
    (annotations : list Annotation.t) (w : World) :
  let cs := IOStreams.ColorScheme (IO opts) in
  renderRun opts run jobs annotations w =
    (exit_signal opts run,
     emit w (header_text opts run ++
             if workflow_issue run jobs
             then workflow_issue_text cs run
             else ColorScheme.Bold cs "JOBS" ++ LF ++
                  concat_map (job_text opts) jobs ++
                  annotations_section cs annotation_text annotations ++
                  footer_text cs run)).
Proof.
  intros cs. destruct (workflow_issue run jobs) eqn:Hb.
  - now apply renderRun_workflow_issue.
  - now apply renderRun_normal.
Qed.

(** C1. [renderRun] returns the silent-failure signal exactly when the
    exit-status flag is set and the run's conclusion is a failure-class
    state; this holds for every list of jobs, so at the exit of the
    branch for a failed run without jobs and at the final exit alike.
    When the conclusion is not failure-class it returns nil whatever the
    flag, and it never returns any other error. *)
Theorem renderRun_exit_status (opts : ViewOptions) (run : Run.t) (jobs : list Job.t)
    (annotations : list Annotation.t) (w : World) :
  let r := fst (renderRun opts run jobs annotations w) in
  (r = Some SilentError <->
     ExitStatus opts = true /\ IsFailureState (Run.Conclusion run) = true)
  /\ (IsFailureState (Run.Conclusion run) = false -> r = None)
  /\ (r = Some SilentError \/ r = None).
Proof.
  cbv zeta. rewrite renderRun_eq. cbn [fst]. unfold exit_signal.
  destruct (ExitStatus opts), (IsFailureState (Run.Conclusion run)); cbn [andb];
    repeat split; intros; try discriminate; auto;
    match goal with H : _ /\ _ |- _ => destruct H; discriminate end.
Qed.

(** C2. For a run with no job and the conclusion "failure", [renderRun]
    writes the header, then the failure icon with the sentence about a
    workflow file issue, an empty line and the line that points to the
    run's URL, and returns: the output ends there, with no JOBS section,
    no ANNOTATIONS section and no footer. *)
Theorem renderRun_no_jobs_failure (opts : ViewOptions) (run : Run.t)
    (annotations : list Annotation.t) (w : World) :
  Run.Conclusion run = Failure ->
  let cs := IOStreams.ColorScheme (IO opts) in
  renderRun opts run [] annotations w =
    (exit_signal opts run,
     emit w (header_text opts run ++
             ColorScheme.FailureIcon cs ++ " " ++
             ColorScheme.Bold cs "This run likely failed because of a workflow file issue." ++ LF ++
             LF ++
             "For more information, see: " ++ ColorScheme.Bold cs (Run.URL run) ++ LF)).
Proof.
  intros Hc cs. rewrite renderRun_eq.
  unfold workflow_issue. rewrite Hc. reflexivity.
Qed.

(** C3. When the JOBS section is rendered, every job contributes its line
    and then, if and only if verbose mode is on or the job's conclusion
    is a failure-class state, one line per step, two spaces, the status
    symbol, a space and the step's name, in the order of the job's steps;
    otherwise it contributes no step line. *)
Theorem renderRun_job_steps (opts : ViewOptions) (run : Run.t) (jobs : list Job.t)
    (annotations : list Annotation.t) (w : World) :
  workflow_issue run jobs = false ->
  let cs := IOStreams.ColorScheme (IO opts) in
  out (snd (renderRun opts run jobs annotations w)) =
    out w ++ header_text opts run ++
    ColorScheme.Bold cs "JOBS" ++ LF ++
    concat_map
      (fun job =>
         job_line cs job ++
         (if Verbose opts || IsFailureState (Job.Conclusion job)
          then concat_map
                 (fun step =>
                    "  " ++ Symbol cs (Step.Status step) (Step.Conclusion step) ++
                    " " ++ Step.Name step ++ LF)
                 (Job.Steps job)
          else ""))
      jobs ++
    annotations_section cs annotation_text annotations ++
    footer_text cs run.
Proof.
  intros Hb cs. rewrite renderRun_eq, Hb. reflexivity.
Qed.

(** C8, as the code has it. The title is the bold head branch, a space
    and the run name; the output starts with an empty line followed by
    the header line: the status symbol, a space, the bold head branch, a
    space, the run name, " · " and the run ID in cyan. *)
Theorem renderRun_header (opts : ViewOptions) (run : Run.t) (jobs : list Job.t)
    (annotations : list Annotation.t) (w : World) :
  let cs := IOStreams.ColorScheme (IO opts) in
  titleForRun cs run = ColorScheme.Bold cs (Run.HeadBranch run) ++ " " ++ Run.Name run
  /\ exists rest,
       out (snd (renderRun opts run jobs annotations w)) =
         out w ++ LF ++
         (Symbol cs (Run.Status run) (Run.Conclusion run) ++ " " ++
          ColorScheme.Bold cs (Run.HeadBranch run) ++ " " ++ Run.Name run ++
          " · " ++ ColorScheme.Cyan cs (itoa (Run.ID run))) ++ LF ++
         rest.
Proof.
  intros cs. split; [apply titleForRun_eq |].
  rewrite renderRun_eq. cbn [snd emit out]. unfold header_text, run_header_line.
  fold cs.
  exists (triggered_line opts run ++ LF ++ LF ++
          if workflow_issue run jobs
          then workflow_issue_text cs run
          else ColorScheme.Bold cs "JOBS" ++ LF ++
               concat_map (job_text opts) jobs ++
               annotations_section cs annotation_text annotations ++
               footer_text cs run).
  string_norm. reflexivity.
Qed.

(** C9, as the code has it. When the JOBS section is rendered, the
    ANNOTATIONS section follows it if and only if there is an annotation:
    an empty line, the bold header, then for each annotation in order the
    line of its symbol and message, and the gray text of job name, path
    and start line with its line feed inside, followed by one more line
    feed, so that an empty line follows every annotation. *)
Theorem renderRun_annotations (opts : ViewOptions) (run : Run.t) (jobs : list Job.t)
    (annotations : list Annotation.t) (w : World) :
  workflow_issue run jobs = false ->
  let cs := IOStreams.ColorScheme (IO opts) in
  out (snd (renderRun opts run jobs annotations w)) =
    out w ++ header_text opts run ++
    ColorScheme.Bold cs "JOBS" ++ LF ++
    concat_map (job_text opts) jobs ++
    match annotations with
    | [] => ""
    | _ :: _ =>
        LF ++ ColorScheme.Bold cs "ANNOTATIONS" ++ LF ++
        concat_map
          (fun a =>
             AnnotationSymbol a cs ++ " " ++ Annotation.Message a ++ LF ++
             ColorScheme.Gray cs
               (Annotation.JobName a ++ ": " ++ Annotation.Path a ++ "#" ++
                itoa (Annotation.StartLine a) ++ LF) ++ LF)
          annotations
    end ++
    footer_text cs run.
Proof.
  intros Hb cs. rewrite renderRun_eq, Hb. reflexivity.
Qed.

(** C10. For a run with no job whose conclusion is anything but
    "failure", the branch for a workflow file issue is not taken: the
    bold JOBS header is written with no job line under it, then the
    annotations and the footer as usual, and the value returned is the
    exit-status decision. *)
Theorem renderRun_no_jobs_other_conclusion (opts : ViewOptions) (run : Run.t)
    (annotations : list Annotation.t) (w : World) :
  Run.Conclusion run <> Failure ->
  let cs := IOStreams.ColorScheme (IO opts) in
  renderRun opts run [] annotations w =
    (if ExitStatus opts && IsFailureState (Run.Conclusion run)
     then Some SilentError else None,
     emit w (header_text opts run ++
             ColorScheme.Bold cs "JOBS" ++ LF ++
             annotations_section cs annotation_text annotations ++
             footer_text cs run)).
Proof.
  intros Hc cs. rewrite renderRun_eq.
  unfold workflow_issue. apply String.eqb_neq in Hc. rewrite Hc.
  reflexivity.
Qed.

(** ** The retrieval phase of [runView] *)

(** The world after the calls [l] were made. *)
Definition record (w : World) (l : list Call) : World :=
  {| out := out w; progress := progress w; calls := calls w ++ l |}.

Lemma record_record (w : World) (l1 l2 : list Call) :
  record (record w l1) l2 = record w (l1 ++ l2).
Proof.
  unfold record; simpl. now rewrite app_assoc.
Qed.

Lemma call_eq {T : Type} (c : Call) (r : T) (w : World) : call c r w = (r, record w [c]).
Proof. reflexivity. Qed.

(** The loop stops at the first job whose annotations cannot be fetched:
    the jobs before it and the job itself were asked for, in order, and
    none after it. *)
Lemma fetchAnnotations_error (client : APIClient) (repo : Repo)
    (pre : list Job.t) (job : Job.t) (post : list Job.t) (err : error) :
  (forall j, In j pre -> exists as_, GetAnnotations client repo j = Ok as_) ->
  GetAnnotations client repo job = Err err ->
  forall acc w, exists acc',
    fetchAnnotations client repo (pre ++ job :: post) acc w =
      ((acc', Some err), record w (map CallGetAnnotations (pre ++ [job]))).
Proof.
  intros Hpre Hjob. induction pre as [| j pre IH]; intros acc w.
  - exists acc. cbn [app fetchAnnotations map]. unfold bind.
    rewrite call_eq, Hjob. reflexivity.
  - destruct (Hpre j (or_introl eq_refl)) as [as_ Hj].
    destruct (IH (fun j' H => Hpre j' (or_intror H)) (acc ++ as_)%list (record w [CallGetAnnotations j]))
      as [acc' Hacc'].
    exists acc'. cbn [app fetchAnnotations map]. unfold bind.
    rewrite call_eq, Hj, Hacc', record_record. reflexivity.
Qed.

(** The annotations of the jobs, flattened in job order, when every fetch
    succeeds. *)
Fixpoint all_annotations (client : APIClient) (repo : Repo) (jobs : list Job.t)
    : option (list Annotation.t) :=
  match jobs with
  | [] => Some []
  | job :: jobs' =>
      match GetAnnotations client repo job, all_annotations client repo jobs' with
      | Ok as_, Some rest => Some (as_ ++ rest)%list
      | _, _ => None
      end
  end.

Lemma fetchAnnotations_ok (client : APIClient) (repo : Repo) (jobs : list Job.t) :
  forall annotations acc w,
    all_annotations client repo jobs = Some annotations ->
    fetchAnnotations client repo jobs acc w =
      (((acc ++ annotations)%list, None), record w (map CallGetAnnotations jobs)).
Proof.
  induction jobs as [| job jobs IH]; intros annotations acc w H.
  - cbn in H. injection H as <-. cbn. unfold ret, record.
    rewrite !app_nil_r. now destruct w.
  - cbn [all_annotations] in H.
    destruct (GetAnnotations client repo job) as [as_ |] eqn:Hjob; [| discriminate].
    destruct (all_annotations client repo jobs) as [rest |]; [| discriminate].
    injection H as <-.
    cbn [fetchAnnotations map]. unfold bind.
    rewrite call_eq, Hjob, (IH rest), record_record, app_assoc; reflexivity.
Qed.

(** The stages of [runView] that call a collaborator. *)
Inductive Stage : Type :=
| HttpClientStage
| BaseRepoStage
| PromptStage
| GetRunStage
| GetJobsStage
| GetAnnotationsStage.

Definition stage_of (c : Call) : Stage :=
  match c with
  | CallHttpClient => HttpClientStage
  | CallBaseRepo => BaseRepoStage
  | CallPromptForRun => PromptStage
  | CallGetRun _ => GetRunStage
  | CallGetJobs _ => GetJobsStage
  | CallGetAnnotations _ => GetAnnotationsStage
  end.

Definition Stage_eqb (s t : Stage) : bool :=
  match s, t with
  | HttpClientStage, HttpClientStage
  | BaseRepoStage, BaseRepoStage
  | PromptStage, PromptStage
  | GetRunStage, GetRunStage
  | GetJobsStage, GetJobsStage
  | GetAnnotationsStage, GetAnnotationsStage => true
  | _, _ => false
  end.

(** How many of the calls [l] went to the collaborator of stage [s]. *)
Definition count_stage (s : Stage) (l : list Call) : nat :=
  length (filter (fun c => Stage_eqb (stage_of c) s) l).

(** The run identifier: the prompt's answer when prompting, else the
    argument. *)
Definition resolved_runID (opts : ViewOptions) (client : APIClient) (repo : Repo)
    : result string :=
  if Prompt opts
  then PromptForRun (IOStreams.ColorScheme (IO opts)) client repo
  else Ok (RunID opts).

(** [fails_at opts s err]: the collaborators of the stages before [s]
    succeed and the one of stage [s] returns [err]. *)
Inductive fails_at (opts : ViewOptions) : Stage -> error -> Prop :=
| fails_HttpClient err :
    HttpClient opts tt = Err err ->
    fails_at opts HttpClientStage err
| fails_BaseRepo c err :
    HttpClient opts tt = Ok c ->
    BaseRepo opts tt = Err err ->
    fails_at opts BaseRepoStage err
| fails_Prompt c repo err :
    HttpClient opts tt = Ok c ->
    BaseRepo opts tt = Ok repo ->
    Prompt opts = true ->
    PromptForRun (IOStreams.ColorScheme (IO opts)) (NewClientFromHTTP c) repo = Err err ->
    fails_at opts PromptStage err
| fails_GetRun c repo runID err :
    HttpClient opts tt = Ok c ->
    BaseRepo opts tt = Ok repo ->
    resolved_runID opts (NewClientFromHTTP c) repo = Ok runID ->
    GetRun (NewClientFromHTTP c) repo runID = Err err ->
    fails_at opts GetRunStage err
| fails_GetJobs c repo runID run err :
    HttpClient opts tt = Ok c ->
    BaseRepo opts tt = Ok repo ->
    resolved_runID opts (NewClientFromHTTP c) repo = Ok runID ->
    GetRun (NewClientFromHTTP c) repo runID = Ok run ->
    GetJobs (NewClientFromHTTP c) repo run = Err err ->
    fails_at opts GetJobsStage err
| fails_GetAnnotations c repo runID run pre job post err :
    HttpClient opts tt = Ok c ->
    BaseRepo opts tt = Ok repo ->
    resolved_runID opts (NewClientFromHTTP c) repo = Ok runID ->
    GetRun (NewClientFromHTTP c) repo runID = Ok run ->
    GetJobs (NewClientFromHTTP c) repo run = Ok (pre ++ job :: post)%list ->
    (forall j, In j pre -> exists as_, GetAnnotations (NewClientFromHTTP c) repo j = Ok as_) ->
    GetAnnotations (NewClientFromHTTP c) repo job = Err err ->
    fails_at opts GetAnnotationsStage err.

(** The error [runView] returns for the error [err] of stage [s]. *)
Definition surfaced (s : Stage) (err : error) : error :=
  match s with
  | HttpClientStage => Errorf "failed to create http client: %w" err
  | BaseRepoStage => Errorf "failed to determine base repo: %w" err
  | PromptStage => err
  | GetRunStage => Errorf "failed to get run: %w" err
  | GetJobsStage => Errorf "failed to get jobs: %w" err
  | GetAnnotationsStage => Errorf "failed to get annotations: %w" err
  end.

(** The calls made before the run is fetched, and before the annotations
    are. *)
Definition calls_before_run (opts : ViewOptions) : list Call :=
  ([CallHttpClient; CallBaseRepo] ++
   if Prompt opts then [CallPromptForRun] else [])%list.

Definition calls_before_annotations (opts : ViewOptions) (runID : string) (run : Run.t)
    : list Call :=
  (calls_before_run opts ++ [CallGetRun runID; CallGetJobs run])%list.

(** The world while the data is retrieved: the calls [l] were made and,
    when progress is shown, the indicator was started. *)
Definition retrieving (opts : ViewOptions) (w : World) (l : list Call) : World :=
  {| out := out w; progress := ShowProgress opts || progress w; calls := calls w ++ l |}.

Lemma runView_HttpClient_error (opts : ViewOptions) (err : error) (w : World) :
  HttpClient opts tt = Err err ->
  runView opts w =
    (Some (Errorf "failed to create http client: %w" err), record w [CallHttpClient]).
Proof.
  intros H. unfold runView, bind. rewrite call_eq, H. reflexivity.
Qed.

Lemma runView_BaseRepo_error (opts : ViewOptions) (c : HTTPClient) (err : error) (w : World) :
  HttpClient opts tt = Ok c ->
  BaseRepo opts tt = Err err ->
  runView opts w =
    (Some (Errorf "failed to determine base repo: %w" err),
     record w [CallHttpClient; CallBaseRepo]).
Proof.
  intros Hc Hr. unfold runView, bind. rewrite call_eq, Hc, call_eq, Hr.
  unfold ret. rewrite record_record. reflexivity.
Qed.

Lemma runView_Prompt_error (opts : ViewOptions) (c : HTTPClient) (repo : Repo)
    (err : error) (w : World) :
  HttpClient opts tt = Ok c ->
  BaseRepo opts tt = Ok repo ->
  Prompt opts = true ->
  PromptForRun (IOStreams.ColorScheme (IO opts)) (NewClientFromHTTP c) repo = Err err ->
  runView opts w = (Some err, record w [CallHttpClient; CallBaseRepo; CallPromptForRun]).
Proof.
  intros Hc Hr Hp He. unfold runView, bind.
  rewrite call_eq, Hc, call_eq, Hr, Hp, call_eq, He.
  unfold ret. rewrite !record_record. reflexivity.
Qed.

(** [runView] up to the call of [GetRun], when the stages before it
    succeed. *)
Lemma runView_resolved (opts : ViewOptions) (c : HTTPClient) (repo : Repo)
    (runID : string) (w : World) :
  HttpClient opts tt = Ok c ->
  BaseRepo opts tt = Ok repo ->
  resolved_runID opts (NewClientFromHTTP c) repo = Ok runID ->
  runView opts w =
    (let client := NewClientFromHTTP c in
     run <- call (CallGetRun runID) (GetRun client repo runID) ;;
     match run with
     | Err err => ret (Some (Errorf "failed to get run: %w" err))
     | Ok run =>
     jobs <- call (CallGetJobs run) (GetJobs client repo run) ;;
     match jobs with
     | Err err => ret (Some (Errorf "failed to get jobs: %w" err))
     | Ok jobs =>
     fetched <- fetchAnnotations client repo jobs [] ;;
     match fetched with
     | (_, Some annotationErr) =>
         ret (Some (Errorf "failed to get annotations: %w" annotationErr))
     | (annotations, None) =>
     (if ShowProgress opts then StopProgressIndicator else ret tt) ;;
     err <- renderRun opts run jobs annotations ;;
     match err with
     | Some err => ret (Some err)
     | None => ret None
     end
     end end end)
    (retrieving opts w (calls_before_run opts)).
Proof.
  intros Hc Hr Hid. unfold resolved_runID in Hid. unfold runView.
  unfold bind at 1. rewrite call_eq, Hc.
  unfold bind at 1. rewrite call_eq, Hr.
  unfold bind at 1. unfold retrieving, calls_before_run.
  destruct (Prompt opts).
  - rewrite call_eq, Hid. unfold bind at 1.
    destruct (ShowProgress opts);
      unfold StartProgressIndicator, ret; rewrite !record_record;
      cbn [record out progress calls orb app]; reflexivity.
  - unfold ret at 1. injection Hid as <-. unfold bind at 1.
    destruct (ShowProgress opts);
      unfold StartProgressIndicator, ret; rewrite !record_record;
      cbn [record out progress calls orb app]; reflexivity.
Qed.

Lemma record_retrieving (opts : ViewOptions) (w : World) (l1 l2 : list Call) :
  record (retrieving opts w l1) l2 = retrieving opts w (l1 ++ l2).
Proof.
  unfold record, retrieving; simpl. now rewrite app_assoc.
Qed.

Lemma runView_GetRun_error (opts : ViewOptions) (c : HTTPClient) (repo : Repo)
    (runID : string) (err : error) (w : World) :
  HttpClient opts tt = Ok c ->
  BaseRepo opts tt = Ok repo ->
  resolved_runID opts (NewClientFromHTTP c) repo = Ok runID ->
  GetRun (NewClientFromHTTP c) repo runID = Err err ->
  runView opts w =
    (Some (Errorf "failed to get run: %w" err),
     retrieving opts w (calls_before_run opts ++ [CallGetRun runID])).
Proof.
  intros Hc Hr Hid Hrun. rewrite (runView_resolved opts c repo runID w Hc Hr Hid).
  cbv zeta. unfold bind. rewrite call_eq, Hrun, record_retrieving. reflexivity.
Qed.

Lemma runView_GetJobs_error (opts : ViewOptions) (c : HTTPClient) (repo : Repo)
    (runID : string) (run : Run.t) (err : error) (w : World) :
  HttpClient opts tt = Ok c ->
  BaseRepo opts tt = Ok repo ->
  resolved_runID opts (NewClientFromHTTP c) repo = Ok runID ->
  GetRun (NewClientFromHTTP c) repo runID = Ok run ->
  GetJobs (NewClientFromHTTP c) repo run = Err err ->
  runView opts w =
    (Some (Errorf "failed to get jobs: %w" err),
     retrieving opts w (calls_before_annotations opts runID run)).
Proof.
  intros Hc Hr Hid Hrun Hjobs. rewrite (runView_resolved opts c repo runID w Hc Hr Hid).
  cbv zeta. unfold bind. rewrite call_eq, Hrun, call_eq, Hjobs, !record_retrieving.
  unfold calls_before_annotations, ret. now rewrite <- app_assoc.
Qed.

Lemma runView_GetAnnotations_error (opts : ViewOptions) (c : HTTPClient) (repo : Repo)
    (runID : string) (run : Run.t) (pre : list Job.t) (job : Job.t) (post : list Job.t)
    (err : error) (w : World) :
  HttpClient opts tt = Ok c ->
  BaseRepo opts tt = Ok repo ->
  resolved_runID opts (NewClientFromHTTP c) repo = Ok runID ->
  GetRun (NewClientFromHTTP c) repo runID = Ok run ->
  GetJobs (NewClientFromHTTP c) repo run = Ok (pre ++ job :: post)%list ->
  (forall j, In j pre -> exists as_, GetAnnotations (NewClientFromHTTP c) repo j = Ok as_) ->
  GetAnnotations (NewClientFromHTTP c) repo job = Err err ->
  runView opts w =
    (Some (Errorf "failed to get annotations: %w" err),
     retrieving opts w
       (calls_before_annotations opts runID run ++
        map CallGetAnnotations (pre ++ [job]))).
Proof.
  intros Hc Hr Hid Hrun Hjobs Hpre Hjob.
  rewrite (runView_resolved opts c repo runID w Hc Hr Hid).
  cbv zeta. unfold bind at 1. rewrite call_eq, Hrun.
  unfold bind at 1. rewrite call_eq, Hjobs.
  unfold bind at 1.
  match goal with
  | |- context [fetchAnnotations ?cl ?r ?js ?acc ?w0] =>
      destruct (fetchAnnotations_error cl r pre job post err Hpre Hjob acc w0)
        as [acc' Hfetch]; rewrite Hfetch
  end.
  rewrite !record_retrieving. unfold calls_before_annotations, ret.
  now rewrite <- !app_assoc.
Qed.

(** When every collaborator succeeds, [runView] is [renderRun] on the
    data retrieved, in a world where the indicator is stopped. *)
Lemma runView_success (opts : ViewOptions) (c : HTTPClient) (repo : Repo)
    (runID : string) (run : Run.t) (jobs : list Job.t)
    (annotations : list Annotation.t) (w : World) :
  HttpClient opts tt = Ok c ->
  BaseRepo opts tt = Ok repo ->
  resolved_runID opts (NewClientFromHTTP c) repo = Ok runID ->
  GetRun (NewClientFromHTTP c) repo runID = Ok run ->
  GetJobs (NewClientFromHTTP c) repo run = Ok jobs ->
  all_annotations (NewClientFromHTTP c) repo jobs = Some annotations ->
  runView opts w =
    renderRun opts run jobs annotations
      {| out := out w;
         progress := if ShowProgress opts then false else progress w;
         calls := calls w ++ calls_before_annotations opts runID run ++
                  map CallGetAnnotations jobs |}.
Proof.
  intros Hc Hr Hid Hrun Hjobs Hall.
  rewrite (runView_resolved opts c repo runID w Hc Hr Hid).
  cbv zeta. unfold bind at 1. rewrite call_eq, Hrun.
  unfold bind at 1. rewrite call_eq, Hjobs.
  unfold bind at 1. rewrite (fetchAnnotations_ok _ _ _ annotations [] _ Hall).
  rewrite !record_retrieving. unfold bind at 1.
  unfold calls_before_annotations, retrieving. rewrite <- !app_assoc. cbn [app].
  destruct (ShowProgress opts); unfold StopProgressIndicator, ret;
    cbn [out progress calls orb].
  all: unfold bind;
    match goal with
    | |- context [renderRun ?o ?r ?j ?a ?w0] =>
        destruct (renderRun o r j a w0) as [[e |] w']; reflexivity
    end.
Qed.

(** At the level of the command: when the retrieval succeeds, what
    [runView] returns is the exit-status decision of [renderRun]. *)
Lemma runView_exit_status (opts : ViewOptions) (c : HTTPClient) (repo : Repo)
    (runID : string) (run : Run.t) (jobs : list Job.t)
    (annotations : list Annotation.t) (w : World) :
  HttpClient opts tt = Ok c ->
  BaseRepo opts tt = Ok repo ->
  resolved_runID opts (NewClientFromHTTP c) repo = Ok runID ->
  GetRun (NewClientFromHTTP c) repo runID = Ok run ->
  GetJobs (NewClientFromHTTP c) repo run = Ok jobs ->
  all_annotations (NewClientFromHTTP c) repo jobs = Some annotations ->
  fst (runView opts w) = exit_signal opts run.
Proof.
  intros Hc Hr Hid Hrun Hjobs Hall.
  rewrite (runView_success opts c repo runID run jobs annotations w Hc Hr Hid Hrun Hjobs Hall).
  rewrite renderRun_eq. reflexivity.
Qed.

Lemma count_stage_app (s : Stage) (l1 l2 : list Call) :
  count_stage s (l1 ++ l2) = (count_stage s l1 + count_stage s l2)%nat.
Proof.
  unfold count_stage. now rewrite filter_app, length_app.
Qed.

Lemma count_stage_annotations (s : Stage) (jobs : list Job.t) :
  s <> GetAnnotationsStage -> count_stage s (map CallGetAnnotations jobs) = 0%nat.
Proof.
  intros Hs. induction jobs as [| j jobs IH]; [reflexivity |].
  unfold count_stage in *. cbn [map filter stage_of].
  destruct s; try exact IH. now elim Hs.
Qed.

Lemma count_stage_before_run (s : Stage) (opts : ViewOptions) :
  (count_stage s (calls_before_run opts) <= 1)%nat
  /\ (s = GetRunStage \/ s = GetJobsStage -> count_stage s (calls_before_run opts) = 0%nat).
Proof.
  unfold calls_before_run.
  destruct (Prompt opts), s; cbn; split; intros; try lia;
    match goal with H : _ \/ _ |- _ => destruct H; discriminate end.
Qed.

(** The calls before the run fetch go to other stages than the fetches. *)
Ltac count_stage_cases s opts :=
  let Hle := fresh "Hle" in
  let Hz := fresh "Hz" in
  let n := fresh "n" in
  destruct (count_stage_before_run s opts) as [Hle Hz];
  set (n := count_stage s (calls_before_run opts)) in *; clearbody n;
  destruct s; cbn; try lia; try (rewrite Hz; auto; lia).

(** C5. The annotations are fetched job by job, in the order of the
    jobs; when the fetch fails for a job after succeeding for the jobs
    before it, [runView] returns that error under "failed to get
    annotations", has asked for no job after the failing one, and has
    written nothing: the annotations collected so far are dropped and not
    rendered. *)
Theorem runView_annotations_fail_fast (opts : ViewOptions) (c : HTTPClient) (repo : Repo)
    (runID : string) (run : Run.t) (pre : list Job.t) (job : Job.t) (post : list Job.t)
    (err : error) (w : World) :
  HttpClient opts tt = Ok c ->
  BaseRepo opts tt = Ok repo ->
  resolved_runID opts (NewClientFromHTTP c) repo = Ok runID ->
  GetRun (NewClientFromHTTP c) repo runID = Ok run ->
  GetJobs (NewClientFromHTTP c) repo run = Ok (pre ++ job :: post)%list ->
  (forall j, In j pre -> exists as_, GetAnnotations (NewClientFromHTTP c) repo j = Ok as_) ->
  GetAnnotations (NewClientFromHTTP c) repo job = Err err ->
  fst (runView opts w) = Some (Errorf "failed to get annotations: %w" err)
  /\ out (snd (runView opts w)) = out w
  /\ calls (snd (runView opts w)) =
       (calls w ++ calls_before_annotations opts runID run ++
        map CallGetAnnotations pre ++ [CallGetAnnotations job])%list.
Proof.
  intros Hc Hr Hid Hrun Hjobs Hpre Hjob.
  rewrite (runView_GetAnnotations_error opts c repo runID run pre job post err w
             Hc Hr Hid Hrun Hjobs Hpre Hjob).
  cbn [fst snd retrieving out calls]. rewrite map_app. cbn [map].
  repeat split; reflexivity.
Qed.

(** C6. Without a run-id argument and without a terminal on both
    standard input and standard output, the command returns the usage
    error "expected a run ID" and leaves the world as it was: no
    collaborator was called, nothing was written, and neither [runView]
    nor the function given in its place was run. *)
Theorem RunE_requires_run_id (f : Factory)
    (runF : option (ViewOptions -> M (option error))) (opts : ViewOptions) (w : World) :
  IOStreams.IsStdoutTTY (IO opts) && IOStreams.IsStdinTTY (IO opts) = false ->
  NewCmdView_RunE f runF opts [] w =
    (Some (FlagError (errors_New "expected a run ID")), w).
Proof.
  intros Htty. unfold NewCmdView_RunE.
  cbn [set_BaseRepo set_ShowProgress IO]. rewrite Htty. reflexivity.
Qed.

(** The calls [runView] has made when the collaborator of stage [s]
    returns [err]: the collaborators of the stages before it, each once
    and in order, then the failing call, and nothing after it.  At the
    annotations stage the fetches made are those of the jobs before the
    failing one, once each in the order of the jobs, and then the fetch
    that failed, once. *)
Definition calls_until_failure (opts : ViewOptions) (s : Stage) (err : error)
    (new : list Call) : Prop :=
  match s with
  | HttpClientStage => new = [CallHttpClient]
  | BaseRepoStage => new = [CallHttpClient; CallBaseRepo]
  | PromptStage => new = [CallHttpClient; CallBaseRepo; CallPromptForRun]
  | GetRunStage =>
      exists c repo runID,
        HttpClient opts tt = Ok c
        /\ BaseRepo opts tt = Ok repo
        /\ resolved_runID opts (NewClientFromHTTP c) repo = Ok runID
        /\ new = (calls_before_run opts ++ [CallGetRun runID])%list
  | GetJobsStage =>
      exists c repo runID run,
        HttpClient opts tt = Ok c
        /\ BaseRepo opts tt = Ok repo
        /\ resolved_runID opts (NewClientFromHTTP c) repo = Ok runID
        /\ GetRun (NewClientFromHTTP c) repo runID = Ok run
        /\ new = (calls_before_run opts ++ [CallGetRun runID; CallGetJobs run])%list
  | GetAnnotationsStage =>
      exists c repo runID run pre job post,
        HttpClient opts tt = Ok c
        /\ BaseRepo opts tt = Ok repo
        /\ resolved_runID opts (NewClientFromHTTP c) repo = Ok runID
        /\ GetRun (NewClientFromHTTP c) repo runID = Ok run
        /\ GetJobs (NewClientFromHTTP c) repo run = Ok (pre ++ job :: post)%list
        /\ (forall j, In j pre ->
                      exists as_, GetAnnotations (NewClientFromHTTP c) repo j = Ok as_)
        /\ GetAnnotations (NewClientFromHTTP c) repo job = Err err
        /\ new = (calls_before_run opts ++ [CallGetRun runID; CallGetJobs run] ++
                  map CallGetAnnotations pre ++ [CallGetAnnotations job])%list
  end.

(** C7, as the code has it. When the collaborator of a stage returns an
    error, [runView] returns at once: an error of the HTTP client
    factory, of the base repository, of the run fetch, of the jobs fetch
    or of an annotations fetch comes back under the context line of its
    stage, an error of the run prompt comes back as it is; nothing is
    written, the failing call is the last call made, and nothing is
    retried: the calls made are exactly those of the stages before the
    failure, once each and in order, the annotations of every job before
    the failing one fetched once, and the failing call once. *)
Theorem runView_error_propagation (opts : ViewOptions) (s : Stage) (err : error)
    (w : World) :
  fails_at opts s err ->
  fst (runView opts w) = Some (surfaced s err)
  /\ out (snd (runView opts w)) = out w
  /\ exists before c,
       calls (snd (runView opts w)) = (calls w ++ before ++ [c])%list
       /\ stage_of c = s
       /\ (forall s', s' <> GetAnnotationsStage ->
                      (count_stage s' (before ++ [c]) <= 1)%nat)
       /\ calls_until_failure opts s err (before ++ [c]).
Proof.
  intros Hfail.
  destruct Hfail as
    [ err Hc
    | c err Hc Hr
    | c repo err Hc Hr Hp He
    | c repo runID err Hc Hr Hid Hrun
    | c repo runID run err Hc Hr Hid Hrun Hjobs
    | c repo runID run pre job post err Hc Hr Hid Hrun Hjobs Hpre Hjob ].
  - rewrite (runView_HttpClient_error opts err w Hc).
    split; [reflexivity |]. split; [reflexivity |].
    exists [], CallHttpClient.
    split; [reflexivity |]. split; [reflexivity |]. split; [| reflexivity].
    intros s' _. destruct s'; cbn; lia.
  - rewrite (runView_BaseRepo_error opts c err w Hc Hr).
    split; [reflexivity |]. split; [reflexivity |].
    exists [CallHttpClient], CallBaseRepo.
    split; [reflexivity |]. split; [reflexivity |]. split; [| reflexivity].
    intros s' _. destruct s'; cbn; lia.
  - rewrite (runView_Prompt_error opts c repo err w Hc Hr Hp He).
    split; [reflexivity |]. split; [reflexivity |].
    exists [CallHttpClient; CallBaseRepo], CallPromptForRun.
    split; [reflexivity |]. split; [reflexivity |]. split; [| reflexivity].
    intros s' _. destruct s'; cbn; lia.
  - rewrite (runView_GetRun_error opts c repo runID err w Hc Hr Hid Hrun).
    split; [reflexivity |]. split; [reflexivity |].
    exists (calls_before_run opts), (CallGetRun runID).
    split; [reflexivity |]. split; [reflexivity |]. split.
    + intros s' _. rewrite count_stage_app. count_stage_cases s' opts.
    + exists c, repo, runID. now repeat split.
  - rewrite (runView_GetJobs_error opts c repo runID run err w Hc Hr Hid Hrun Hjobs).
    split; [reflexivity |]. split; [reflexivity |].
    exists (calls_before_run opts ++ [CallGetRun runID])%list, (CallGetJobs run).
    unfold calls_before_annotations. cbn [snd retrieving calls].
    split; [now rewrite <- !app_assoc |]. split; [reflexivity |]. split.
    + intros s' _. rewrite !count_stage_app. count_stage_cases s' opts.
    + exists c, repo, runID, run. repeat split; try assumption.
      now rewrite <- !app_assoc.
  - rewrite (runView_GetAnnotations_error opts c repo runID run pre job post err w
               Hc Hr Hid Hrun Hjobs Hpre Hjob).
    split; [reflexivity |]. split; [reflexivity |].
    exists (calls_before_annotations opts runID run ++ map CallGetAnnotations pre)%list,
           (CallGetAnnotations job).
    cbn [snd retrieving calls].
    split; [now rewrite map_app, <- !app_assoc |]. split; [reflexivity |]. split.
    + intros s' Hs'. unfold calls_before_annotations. rewrite !count_stage_app.
      rewrite (count_stage_annotations s' pre Hs').
      count_stage_cases s' opts. now elim Hs'.
    + exists c, repo, runID, run, pre, job, post.
      repeat split; try assumption.
      unfold calls_before_annotations. now rewrite <- !app_assoc.
Qed.

(** The indicator on the error paths of the retrieval phase: when
    progress is shown and the run fetch, the jobs fetch or an annotations
    fetch fails, [runView] returns with the indicator running. *)
Lemma runView_error_leaves_indicator (opts : ViewOptions) (s : Stage) (err : error)
    (w : World) :
  fails_at opts s err ->
  ShowProgress opts = true ->
  s = GetRunStage \/ s = GetJobsStage \/ s = GetAnnotationsStage ->
  progress (snd (runView opts w)) = true.
Proof.
  intros Hfail Hshow Hs.
  destruct Hfail as
    [ err Hc
    | c err Hc Hr
    | c repo err Hc Hr Hp He
    | c repo runID err Hc Hr Hid Hrun
    | c repo runID run err Hc Hr Hid Hrun Hjobs
    | c repo runID run pre job post err Hc Hr Hid Hrun Hjobs Hpre Hjob ];
    try (destruct Hs as [Hs | [Hs | Hs]]; discriminate).
  - rewrite (runView_GetRun_error opts c repo runID err w Hc Hr Hid Hrun).
    cbn [snd retrieving progress]. now rewrite Hshow.
  - rewrite (runView_GetJobs_error opts c repo runID run err w Hc Hr Hid Hrun Hjobs).
    cbn [snd retrieving progress]. now rewrite Hshow.
  - rewrite (runView_GetAnnotations_error opts c repo runID run pre job post err w
               Hc Hr Hid Hrun Hjobs Hpre Hjob).
    cbn [snd retrieving progress]. now rewrite Hshow.
Qed.

(** ** Every outcome of [runView] *)

(** [retrieves opts runID run jobs annotations]: every collaborator
    succeeds, and these are the data they return. *)
Inductive retrieves (opts : ViewOptions)
  : string -> Run.t -> list Job.t -> list Annotation.t -> Prop :=
| retrieves_all c repo runID run jobs annotations :
    HttpClient opts tt = Ok c ->
    BaseRepo opts tt = Ok repo ->
    resolved_runID opts (NewClientFromHTTP c) repo = Ok runID ->
    GetRun (NewClientFromHTTP c) repo runID = Ok run ->
    GetJobs (NewClientFromHTTP c) repo run = Ok jobs ->
    all_annotations (NewClientFromHTTP c) repo jobs = Some annotations ->
    retrieves opts runID run jobs annotations.

(** Either every job's annotations can be fetched, or there is a first job
    for which the fetch fails. *)
Lemma annotations_outcome (client : APIClient) (repo : Repo) (jobs : list Job.t) :
  (exists annotations, all_annotations client repo jobs = Some annotations)
  \/ (exists pre job post err,
        jobs = (pre ++ job :: post)%list
        /\ (forall j, In j pre -> exists as_, GetAnnotations client repo j = Ok as_)
        /\ GetAnnotations client repo job = Err err).
Proof.
  induction jobs as [| j jobs IH].
  - left. exists []. reflexivity.
  - destruct (GetAnnotations client repo j) as [as_ | err] eqn:Hj.
    + destruct IH as [[rest Hrest] | [pre [job [post [err [Hjobs [Hpre Hjob]]]]]]].
      * left. exists (as_ ++ rest)%list. cbn [all_annotations]. now rewrite Hj, Hrest.
      * right. exists (j :: pre), job, post, err. repeat split.
        -- now rewrite Hjobs.
        -- intros j' [<- | Hin]; [now exists as_ | now apply Hpre].
        -- exact Hjob.
    + right. exists [], j, jobs, err. repeat split; [intros j' [] | exact Hj].
Qed.

(** [runView] fails at exactly one stage or retrieves everything. *)
Lemma runView_outcome (opts : ViewOptions) :
  (exists s err, fails_at opts s err)
  \/ (exists runID run jobs annotations, retrieves opts runID run jobs annotations).
Proof.
  destruct (HttpClient opts tt) as [c | err] eqn:Hc;
    [| left; exists HttpClientStage, err; now constructor].
  destruct (BaseRepo opts tt) as [repo | err] eqn:Hr;
    [| left; exists BaseRepoStage, err; now apply (fails_BaseRepo opts c)].
  destruct (resolved_runID opts (NewClientFromHTTP c) repo) as [runID | err] eqn:Hid.
  2:{ left. exists PromptStage, err. unfold resolved_runID in Hid.
      destruct (Prompt opts) eqn:Hp; [| discriminate].
      now apply (fails_Prompt opts c repo). }
  destruct (GetRun (NewClientFromHTTP c) repo runID) as [run | err] eqn:Hrun;
    [| left; exists GetRunStage, err; now apply (fails_GetRun opts c repo runID)].
  destruct (GetJobs (NewClientFromHTTP c) repo run) as [jobs | err] eqn:Hjobs;
    [| left; exists GetJobsStage, err; now apply (fails_GetJobs opts c repo runID run)].
  destruct (annotations_outcome (NewClientFromHTTP c) repo jobs)
    as [[annotations Hall] | [pre [job [post [err [Hsplit [Hpre Hjob]]]]]]].
  - right. exists runID, run, jobs, annotations.
    now apply (retrieves_all opts c repo).
  - left. exists GetAnnotationsStage, err. subst jobs.
    now apply (fails_GetAnnotations opts c repo runID run pre job post).
Qed.

(** What [runView] does when everything is retrieved: the calls, the
    indicator stopped if it was started, the text of [renderRun] and its
    exit-status decision. *)
Lemma runView_retrieves (opts : ViewOptions) (runID : string) (run : Run.t)
    (jobs : list Job.t) (annotations : list Annotation.t) (w : World) :
  retrieves opts runID run jobs annotations ->
  let cs := IOStreams.ColorScheme (IO opts) in
  runView opts w =
    (exit_signal opts run,
     {| out := out w ++ header_text opts run ++
               (if workflow_issue run jobs
                then workflow_issue_text cs run
                else ColorScheme.Bold cs "JOBS" ++ LF ++
                     concat_map (job_text opts) jobs ++
                     annotations_section cs annotation_text annotations ++
                     footer_text cs run);
        progress := if ShowProgress opts then false else progress w;
        calls := calls w ++ calls_before_annotations opts runID run ++
                 map CallGetAnnotations jobs |}).
Proof.
  intros [c repo runID' run' jobs' annotations' Hc Hr Hid Hrun Hjobs Hall] cs.
  rewrite (runView_success opts c repo _ _ _ _ w Hc Hr Hid Hrun Hjobs Hall).
  rewrite renderRun_eq. reflexivity.
Qed.

(** The case analysis on the outcome of [runView opts w], with the result
    of each case written out. *)
Ltac runView_cases opts w :=
  let s := fresh "s" in
  let err := fresh "err" in
  let Hfail := fresh "Hfail" in
  let Hok := fresh "Hok" in
  destruct (runView_outcome opts)
    as [[s [err Hfail]] | [?runID [?run [?jobs [?annotations Hok]]]]];
  [ destruct Hfail;
    [ erewrite (runView_HttpClient_error opts _ w) by eassumption
    | erewrite (runView_BaseRepo_error opts _ _ w) by eassumption
    | erewrite (runView_Prompt_error opts _ _ _ w) by eassumption
    | erewrite (runView_GetRun_error opts _ _ _ _ w) by eassumption
    | erewrite (runView_GetJobs_error opts _ _ _ _ _ w) by eassumption
    | erewrite (runView_GetAnnotations_error opts _ _ _ _ _ _ _ _ w) by eassumption ]
  | rewrite (runView_retrieves opts _ _ _ _ w Hok) ];
  cbn [fst snd record retrieving out progress calls].

(** ** What [runView] does on every path *)

(** X1. [runView] returns nil only when every collaborator succeeded and
    the exit-status decision on the run it fetched is nil: a failure of
    any stage, the prompt included, comes back as a non-nil error. *)
Theorem runView_nil_only_after_success (opts : ViewOptions) (w : World) :
  fst (runView opts w) = None ->
  exists runID run jobs annotations,
    retrieves opts runID run jobs annotations
    /\ ExitStatus opts && IsFailureState (Run.Conclusion run) = false.
Proof.
  runView_cases opts w; try discriminate.
  intros Hnil.
  match goal with
  | Hok : retrieves opts ?i ?r ?j ?a |- _ => exists i, r, j, a; split; [exact Hok |]
  end.
  unfold exit_signal in Hnil.
  destruct (ExitStatus opts && IsFailureState (Run.Conclusion run));
    [discriminate | reflexivity].
Qed.

(** X2. When the options do not ask for the prompt, [runView] never calls
    [PromptForRun], whatever the other collaborators return. *)
Theorem runView_never_prompts_unasked (opts : ViewOptions) (w : World) :
  Prompt opts = false ->
  exists new,
    calls (snd (runView opts w)) = (calls w ++ new)%list
    /\ count_stage PromptStage new = 0%nat.
Proof.
  intros Hunasked.
  assert (Hbefore : count_stage PromptStage (calls_before_run opts) = 0%nat)
    by (unfold calls_before_run; now rewrite Hunasked).
  runView_cases opts w; try congruence;
    eexists; (split; [reflexivity |]);
    unfold calls_before_annotations;
    rewrite ?count_stage_app, ?Hbefore, ?count_stage_annotations by discriminate;
    reflexivity.
Qed.

(** X3. When progress is not shown, [runView] leaves the indicator as it
    found it on every path: it neither starts nor stops it. *)
Theorem runView_indicator_untouched (opts : ViewOptions) (w : World) :
  ShowProgress opts = false ->
  progress (snd (runView opts w)) = progress w.
Proof.
  intros Hs. runView_cases opts w; rewrite ?Hs; reflexivity.
Qed.

(** X4. On every path, success included, the first call of [runView] is
    the HTTP client factory, and none of the factory, the repository
    resolver, the prompt, the run fetch and the jobs fetch is called more
    than once. *)
Theorem runView_calls_each_collaborator_once (opts : ViewOptions) (w : World) :
  exists new,
    calls (snd (runView opts w)) = (calls w ++ new)%list
    /\ hd_error new = Some CallHttpClient
    /\ forall s, s <> GetAnnotationsStage -> (count_stage s new <= 1)%nat.
Proof.
  runView_cases opts w;
    eexists; (split; [reflexivity |]); (split; [reflexivity |]);
    intros s' Hs'; unfold calls_before_annotations;
    rewrite ?count_stage_app, ?(count_stage_annotations s') by exact Hs';
    try (destruct s'; cbn; lia);
    count_stage_cases s' opts; now elim Hs'.
Qed.

(** X5. A failure of the HTTP client factory, of the repository resolver
    or of the prompt returns before the indicator is started: the
    indicator and the output are as [runView] found them, also when
    progress is shown. *)
Theorem runView_early_failure_before_indicator (opts : ViewOptions) (s : Stage)
    (err : error) (w : World) :
  fails_at opts s err ->
  s = HttpClientStage \/ s = BaseRepoStage \/ s = PromptStage ->
  progress (snd (runView opts w)) = progress w
  /\ out (snd (runView opts w)) = out w.
Proof.
  intros Hfail Hs.
  destruct Hfail as
    [ err Hc
    | c err Hc Hr
    | c repo err Hc Hr Hp He
    | c repo runID err Hc Hr Hid Hrun
    | c repo runID run err Hc Hr Hid Hrun Hjobs
    | c repo runID run pre job post err Hc Hr Hid Hrun Hjobs Hpre Hjob ];
    try (destruct Hs as [Hs | [Hs | Hs]]; discriminate).
  - rewrite (runView_HttpClient_error opts err w Hc). now split.
  - rewrite (runView_BaseRepo_error opts c err w Hc Hr). now split.
  - rewrite (runView_Prompt_error opts c repo err w Hc Hr Hp He). now split.
Qed.

Lemma all_annotations_flat_map (client : APIClient) (repo : Repo)
    (f : Job.t -> list Annotation.t) (jobs : list Job.t) :
  (forall j, In j jobs -> GetAnnotations client repo j = Ok (f j)) ->
  all_annotations client repo jobs = Some (flat_map f jobs).
Proof.
  induction jobs as [| j jobs IH]; intros Hget; [reflexivity |].
  cbn [all_annotations flat_map].
  rewrite (Hget j (or_introl eq_refl)), IH; [reflexivity |].
  intros j' Hin. apply Hget. now right.
Qed.

(** X6. When every fetch succeeds, the annotations handed to [renderRun]
    are those of the jobs concatenated in the order of the jobs, each
    job's annotations in the order its fetch returned them; every job is
    asked once, in order, after the run and the jobs were fetched, and the
    indicator is stopped, if it was started, before anything is
    rendered. *)
Theorem runView_flattens_annotations (opts : ViewOptions) (c : HTTPClient) (repo : Repo)
    (runID : string) (run : Run.t) (jobs : list Job.t)
    (f : Job.t -> list Annotation.t) (w : World) :
  HttpClient opts tt = Ok c ->
  BaseRepo opts tt = Ok repo ->
  resolved_runID opts (NewClientFromHTTP c) repo = Ok runID ->
  GetRun (NewClientFromHTTP c) repo runID = Ok run ->
  GetJobs (NewClientFromHTTP c) repo run = Ok jobs ->
  (forall j, In j jobs -> GetAnnotations (NewClientFromHTTP c) repo j = Ok (f j)) ->
  runView opts w =
    renderRun opts run jobs (flat_map f jobs)
      {| out := out w;
         progress := if ShowProgress opts then false else progress w;
         calls := calls w ++ calls_before_annotations opts runID run ++
                  map CallGetAnnotations jobs |}.
Proof.
  intros Hc Hr Hid Hrun Hjobs Hget.
  apply (runView_success opts c repo runID run jobs (flat_map f jobs) w Hc Hr Hid Hrun Hjobs).
  now apply all_annotations_flat_map.
Qed.

(** X7. When the run fetched has no jobs, [runView] fetches no annotations
    and prints no ANNOTATIONS section: after the header it prints either
    the workflow-file-issue text, for the conclusion "failure", or the
    bold JOBS line and the footer, and it returns the exit-status
    decision. *)
Theorem runView_run_without_jobs (opts : ViewOptions) (c : HTTPClient) (repo : Repo)
    (runID : string) (run : Run.t) (w : World) :
  HttpClient opts tt = Ok c ->
  BaseRepo opts tt = Ok repo ->
  resolved_runID opts (NewClientFromHTTP c) repo = Ok runID ->
  GetRun (NewClientFromHTTP c) repo runID = Ok run ->
  GetJobs (NewClientFromHTTP c) repo run = Ok [] ->
  let cs := IOStreams.ColorScheme (IO opts) in
  runView opts w =
    (if ExitStatus opts && IsFailureState (Run.Conclusion run)
     then Some SilentError else None,
     {| out := out w ++ header_text opts run ++
               (if String.eqb (Run.Conclusion run) Failure
                then workflow_issue_text cs run
                else ColorScheme.Bold cs "JOBS" ++ LF ++ footer_text cs run);
        progress := if ShowProgress opts then false else progress w;
        calls := calls w ++ [CallHttpClient; CallBaseRepo] ++
                 (if Prompt opts then [CallPromptForRun] else []) ++
                 [CallGetRun runID; CallGetJobs run] |}).
Proof.
  intros Hc Hr Hid Hrun Hjobs cs.
  rewrite (runView_retrieves opts runID run [] [] w
             (retrieves_all opts c repo runID run [] [] Hc Hr Hid Hrun Hjobs eq_refl)).
  unfold workflow_issue, calls_before_annotations, calls_before_run.
  cbn [length Nat.eqb andb concat_map annotations_section map String.append].
  rewrite !app_nil_r, <- !app_assoc. reflexivity.
Qed.

(** ** What [renderRun] writes, seen from outside *)

(** X8. [renderRun] only appends to the output: what it writes is the same
    text whatever the world it starts in, what was written before stays
    in front of it, and it calls no collaborator and leaves the indicator
    alone. *)
Theorem renderRun_only_writes (opts : ViewOptions) (run : Run.t) (jobs : list Job.t)
    (annotations : list Annotation.t) :
  exists text, forall w,
    snd (renderRun opts run jobs annotations w) =
      {| out := out w ++ text; progress := progress w; calls := calls w |}.
Proof.
  eexists. intros w. rewrite renderRun_eq. reflexivity.
Qed.

Lemma concat_map_ext {A : Type} (f g : A -> string) (l : list A) :
  (forall x, f x = g x) -> concat_map f l = concat_map g l.
Proof.
  intros Hfg. induction l as [| x l IH]; [reflexivity |].
  cbn [concat_map]. now rewrite Hfg, IH.
Qed.

(** X9. What [renderRun] writes depends on the options only through the
    output streams, the clock and the verbose flag: two option values
    that agree on these write the same text, so the exit-status flag, the
    run ID, the prompt and progress settings and the factories have no
    influence on the output. *)
Theorem renderRun_output_depends_on (opts opts' : ViewOptions) (run : Run.t)
    (jobs : list Job.t) (annotations : list Annotation.t) (w : World) :
  IO opts = IO opts' ->
  Now opts tt = Now opts' tt ->
  Verbose opts = Verbose opts' ->
  snd (renderRun opts run jobs annotations w) =
  snd (renderRun opts' run jobs annotations w).
Proof.
  intros Hio Hnow Hverbose. rewrite !renderRun_eq. cbn [snd]. cbv zeta.
  unfold header_text, triggered_line. rewrite Hio, Hnow.
  rewrite (concat_map_ext (job_text opts) (job_text opts')); [reflexivity |].
  intros job. unfold job_text. now rewrite Hio, Hverbose.
Qed.

(** A format without a percent sign is copied as it is. *)
Fixpoint no_percent (s : string) : bool :=
  match s with
  | EmptyString => true
  | String c s' => negb (Ascii.eqb c "%") && no_percent s'
  end.

Lemma Sprintf_literal_prefix (pre format : string) (args : list arg) :
  no_percent pre = true ->
  Sprintf (pre ++ format) args = pre ++ Sprintf format args.
Proof.
  induction pre as [| c pre IH]; intros Hpre; [reflexivity |].
  cbn [no_percent] in Hpre. apply andb_true_iff in Hpre as [Hc Hpre].
  cbn [String.append Sprintf].
  destruct (Ascii.eqb c "%"); [discriminate |].
  now rewrite IH.
Qed.

Lemma Sprintf_literal (s : string) : no_percent s = true -> Sprintf s [] = s.
Proof.
  intros Hs. rewrite <- (append_nil_r s) at 1.
  rewrite Sprintf_literal_prefix by exact Hs.
  cbn [Sprintf extra]. apply append_nil_r.
Qed.

Lemma Sprintf_view_line (url rest : string) :
  Sprintf (("view this run on GitHub: %s" ++ LF) ++ rest) [ArgString url]
  = "view this run on GitHub: " ++ url ++ LF ++ Sprintf rest [].
Proof. reflexivity. Qed.

(** X10. The last line is formatted after it is styled: for a colour
    scheme whose gray puts its text between two strings without a percent
    sign, the output of the normal branch ends with the first of them,
    "view this run on GitHub: ", the run's URL as it is, a line feed, and
    the second; the URL is an operand, so a percent sign in it is not
    interpreted, and the line feed lies inside the gray text. *)
Theorem renderRun_last_line (opts : ViewOptions) (run : Run.t) (jobs : list Job.t)
    (annotations : list Annotation.t) (w : World) (pre post : string) :
  let cs := IOStreams.ColorScheme (IO opts) in
  workflow_issue run jobs = false ->
  (forall s, ColorScheme.Gray cs s = pre ++ s ++ post) ->
  no_percent pre = true ->
  no_percent post = true ->
  out (snd (renderRun opts run jobs annotations w)) =
    out w ++
    (header_text opts run ++
     ColorScheme.Bold cs "JOBS" ++ LF ++
     concat_map (job_text opts) jobs ++
     annotations_section cs annotation_text annotations ++
     LF ++ "For more information about a job, try: gh job view <job-id>" ++ LF) ++
    pre ++ "view this run on GitHub: " ++ Run.URL run ++ LF ++ post.
Proof.
  intros cs Hb Hgray Hpre Hpost. rewrite renderRun_eq, Hb. fold cs.
  cbn [snd emit out]. unfold footer_text. rewrite Hgray.
  rewrite Sprintf_literal_prefix by exact Hpre.
  rewrite Sprintf_view_line, (Sprintf_literal post Hpost).
  rewrite !append_assoc. reflexivity.
Qed.

(** ** The command, from its arguments *)

(** Once the run identifier is resolved, the run fetch is the next call
    and asks for that identifier. *)
Lemma runView_fetches_resolved_run (opts : ViewOptions) (c : HTTPClient) (repo : Repo)
    (runID : string) (w : World) :
  HttpClient opts tt = Ok c ->
  BaseRepo opts tt = Ok repo ->
  resolved_runID opts (NewClientFromHTTP c) repo = Ok runID ->
  exists rest,
    calls (snd (runView opts w)) =
      (calls w ++ calls_before_run opts ++ CallGetRun runID :: rest)%list.
Proof.
  intros Hc Hr Hid.
  destruct (GetRun (NewClientFromHTTP c) repo runID) as [run | err] eqn:Hrun.
  2:{ rewrite (runView_GetRun_error opts c repo runID err w Hc Hr Hid Hrun).
      now exists []. }
  destruct (GetJobs (NewClientFromHTTP c) repo run) as [jobs | err] eqn:Hjobs.
  2:{ rewrite (runView_GetJobs_error opts c repo runID run err w Hc Hr Hid Hrun Hjobs).
      exists [CallGetJobs run]. unfold calls_before_annotations.
      cbn [snd retrieving calls]. reflexivity. }
  destruct (annotations_outcome (NewClientFromHTTP c) repo jobs)
    as [[annotations Hall] | [pre [job [post [err [Hsplit [Hpre Hjob]]]]]]].
  - rewrite (runView_retrieves opts runID run jobs annotations w
               (retrieves_all opts c repo runID run jobs annotations
                  Hc Hr Hid Hrun Hjobs Hall)).
    exists (CallGetJobs run :: map CallGetAnnotations jobs).
    unfold calls_before_annotations. cbn [snd calls].
    now rewrite <- !app_assoc.
  - subst jobs.
    rewrite (runView_GetAnnotations_error opts c repo runID run pre job post err w
               Hc Hr Hid Hrun Hjobs Hpre Hjob).
    exists (CallGetJobs run :: map CallGetAnnotations (pre ++ [job])).
    unfold calls_before_annotations. cbn [snd retrieving calls].
    now rewrite <- !app_assoc.
Qed.

(** X11. With a run-id argument, and options that do not already ask for
    the prompt, the command does not prompt: after the HTTP client factory
    and the factory's repository resolver it fetches the run with the
    first argument as it is, in a terminal or not. *)
Theorem RunE_fetches_the_argument (f : Factory) (opts : ViewOptions) (c : HTTPClient)
    (repo : Repo) (runID : string) (more : list string) (w : World) :
  Prompt opts = false ->
  HttpClient opts tt = Ok c ->
  Factory_BaseRepo f tt = Ok repo ->
  exists rest,
    calls (snd (NewCmdView_RunE f None opts (runID :: more) w)) =
      (calls w ++ [CallHttpClient; CallBaseRepo; CallGetRun runID] ++ rest)%list.
Proof.
  intros Hunasked Hc Hr. unfold NewCmdView_RunE.
  match goal with
  | |- context [runView ?o w] =>
      destruct (runView_fetches_resolved_run o c repo runID w Hc Hr) as [rest Hcalls];
        [unfold resolved_runID; cbn [Prompt set_RunID]; cbn; now rewrite Hunasked |];
        exists rest; rewrite Hcalls; unfold calls_before_run;
        cbn [Prompt set_RunID set_ShowProgress set_BaseRepo]; rewrite Hunasked
  end.
  reflexivity.
Qed.

(** X12. Without an argument in a terminal, the command prompts right
    after the HTTP client factory and the factory's repository resolver,
    and fetches the run the prompt answered, not the run ID held in the
    options. *)
Theorem RunE_fetches_the_prompted_run (f : Factory) (opts : ViewOptions) (c : HTTPClient)
    (repo : Repo) (runID : string) (w : World) :
  IOStreams.IsStdoutTTY (IO opts) && IOStreams.IsStdinTTY (IO opts) = true ->
  HttpClient opts tt = Ok c ->
  Factory_BaseRepo f tt = Ok repo ->
  PromptForRun (IOStreams.ColorScheme (IO opts)) (NewClientFromHTTP c) repo = Ok runID ->
  exists rest,
    calls (snd (NewCmdView_RunE f None opts [] w)) =
      (calls w ++ [CallHttpClient; CallBaseRepo; CallPromptForRun; CallGetRun runID] ++
       rest)%list.
Proof.
  intros Htty Hc Hr Hprompt. unfold NewCmdView_RunE.
  cbn [set_BaseRepo set_ShowProgress IO]. rewrite Htty. cbn [negb].
  match goal with
  | |- context [runView ?o w] =>
      destruct (runView_fetches_resolved_run o c repo runID w Hc Hr) as [rest Hcalls];
        [exact Hprompt |];
        exists rest; rewrite Hcalls
  end.
  reflexivity.
Qed.

(** X13. The repository is resolved through the factory at the time the
    command runs, not through the resolver the options held: when the
    factory's resolver fails, the command returns its error under "failed
    to determine base repo" after the two factory calls, with nothing
    written and the indicator not started. *)
Theorem RunE_uses_factory_BaseRepo (f : Factory) (opts : ViewOptions) (c : HTTPClient)
    (err : error) (args : list string) (w : World) :
  HttpClient opts tt = Ok c ->
  Factory_BaseRepo f tt = Err err ->
  args <> [] \/ IOStreams.IsStdoutTTY (IO opts) && IOStreams.IsStdinTTY (IO opts) = true ->
  NewCmdView_RunE f None opts args w =
    (Some (Errorf "failed to determine base repo: %w" err),
     {| out := out w; progress := progress w;
        calls := calls w ++ [CallHttpClient; CallBaseRepo] |}).
Proof.
  intros Hc Hr Hargs. unfold NewCmdView_RunE.
  destruct args as [| runID more].
  - destruct Hargs as [Hargs | Htty]; [now elim Hargs |].
    cbn [set_BaseRepo set_ShowProgress IO]. rewrite Htty. cbn [negb].
    now apply (runView_BaseRepo_error _ c err w).
  - now apply (runView_BaseRepo_error _ c err w).
Qed.

(** X14. Outside a terminal the command never touches the indicator,
    whatever its arguments and whatever the collaborators return. *)
Theorem RunE_no_indicator_without_terminal (f : Factory) (opts : ViewOptions)
    (args : list string) (w : World) :
  IOStreams.IsStdoutTTY (IO opts) && IOStreams.IsStdinTTY (IO opts) = false ->
  progress (snd (NewCmdView_RunE f None opts args w)) = progress w.
Proof.
  intros Htty. unfold NewCmdView_RunE.
  cbn [set_BaseRepo set_ShowProgress IO]. rewrite Htty. cbn [negb].
  destruct args as [| runID more]; [reflexivity |].
  match goal with
  | |- context [runView ?o w] =>
      assert (Hs : ShowProgress o = false) by reflexivity;
      runView_cases o w; rewrite ?Hs; reflexivity
  end.
Qed.

End View.

(** ** A sample repository *)

(** Stand-ins for the collaborators, in the manner of the command's tests:
    a colour scheme with colours off, fixed data, and fetches that fail
    where a scenario says so. *)
Module Sample.

Local Open Scope Z_scope.

Definition plain : ColorScheme.t :=
  {| ColorScheme.Bold := fun s => s;
     ColorScheme.Gray := fun s => s;
     ColorScheme.Cyan := fun s => s;
     ColorScheme.FailureIcon := "X" |}.

Definition pipe : IOStreams.t :=
  {| IOStreams.IsStdoutTTY := false;
     IOStreams.IsStdinTTY := true;
     IOStreams.ColorScheme := plain |}.

Definition terminal : IOStreams.t :=
  {| IOStreams.IsStdoutTTY := true;
     IOStreams.IsStdinTTY := true;
     IOStreams.ColorScheme := plain |}.

Definition Symbol (cs : ColorScheme.t) (status : Status) (conclusion : Conclusion) : string :=
  if String.eqb status "completed" then
    if String.eqb conclusion "success" then "+" else ColorScheme.FailureIcon cs
  else "-".

Definition AnnotationSymbol (a : Annotation.t) (cs : ColorScheme.t) : string :=
  if String.eqb (Annotation.Level a) "failure" then ColorScheme.FailureIcon cs else "!".

Definition IsFailureState (c : Conclusion) : bool :=
  String.eqb c "failure" || String.eqb c "timed_out".

Definition FuzzyAgo (ago : time.Duration) : string := "some time ago".

Definition a_run (conclusion : Conclusion) : Run.t :=
  {| Run.ID := 3; Run.Name := "successful"; Run.HeadBranch := "trunk";
     Run.Event := "push"; Run.CreatedAt := 0; Run.Status := "completed";
     Run.Conclusion := conclusion; Run.URL := "runs/3" |}.

Definition steps : list Step.t :=
  [ {| Step.Name := "barf the quux"; Step.Status := "completed";
       Step.Conclusion := "success" |};
    {| Step.Name := "quux the barf"; Step.Status := "completed";
       Step.Conclusion := "failure" |} ].

Definition cool_job : Job.t :=
  {| Job.ID := 10; Job.Name := "cool job"; Job.Status := "completed";
     Job.Conclusion := "success"; Job.Steps := steps |}.

Definition sad_job : Job.t :=
  {| Job.ID := 20; Job.Name := "sad job"; Job.Status := "completed";
     Job.Conclusion := "failure"; Job.Steps := steps |}.

Definition sad_annotation : Annotation.t :=
  {| Annotation.JobName := "sad job"; Annotation.Message := "the job is sad";
     Annotation.Path := "blaze.py"; Annotation.Level := "failure";
     Annotation.StartLine := 420 |}.

(** Which collaborator fails, if any. *)
Inductive Scenario : Type :=
| AllSucceed
| PromptFails
| GetRunFails
| GetJobsFails
| SadJobAnnotationsFail.

Definition NewClientFromHTTP (c : unit) : unit := c.

Definition PromptForRun (sc : Scenario) (cs : ColorScheme.t) (client : unit) (repo : string)
    : result string :=
  match sc with
  | PromptFails => Err (errors_New "could not prompt: cancelled")
  | _ => Ok "3"
  end.

Definition GetRun (sc : Scenario) (client : unit) (repo : string) (runID : string)
    : result Run.t :=
  match sc with
  | GetRunFails => Err (errors_New "HTTP 404")
  | _ => Ok (a_run "failure")
  end.

Definition GetJobs (sc : Scenario) (client : unit) (repo : string) (run : Run.t)
    : result (list Job.t) :=
  match sc with
  | GetJobsFails => Err (errors_New "HTTP 500")
  | _ => Ok [cool_job; sad_job]
  end.

Definition GetAnnotations (sc : Scenario) (client : unit) (repo : string) (job : Job.t)
    : result (list Annotation.t) :=
  match sc with
  | SadJobAnnotationsFail =>
      if Job.ID job =? 20 then Err (errors_New "HTTP 502") else Ok [sad_annotation]
  | _ => if Job.ID job =? 20 then Ok [sad_annotation] else Ok []
  end.

(** The options of [gh run view 3], with the flags given. *)
Definition options (io : IOStreams.t) (verbose exitStatus : bool)
    : @ViewOptions unit string :=
  {| HttpClient := fun _ => Ok tt; IO := io; BaseRepo := fun _ => Ok "OWNER/REPO";
     RunID := "3"; Verbose := verbose; ExitStatus := exitStatus;
     Prompt := false; ShowProgress := false; Now := fun _ => 3600 |}.

Definition factory (io : IOStreams.t) : @Factory unit string :=
  {| Factory_IOStreams := io;
     Factory_HttpClient := fun _ => Ok tt;
     Factory_BaseRepo := fun _ => Ok "OWNER/REPO" |}.

Definition render : @ViewOptions unit string -> _ :=
  renderRun Symbol AnnotationSymbol IsFailureState FuzzyAgo.

Definition view (sc : Scenario) :=
  runView NewClientFromHTTP (PromptForRun sc) (GetRun sc) (GetJobs sc) (GetAnnotations sc)
    Symbol AnnotationSymbol IsFailureState FuzzyAgo.

Definition command (sc : Scenario) (io : IOStreams.t) (verbose exitStatus : bool)
    (args : list string) :=
  NewCmdView_RunE NewClientFromHTTP (PromptForRun sc) (GetRun sc) (GetJobs sc)
    (GetAnnotations sc) Symbol AnnotationSymbol IsFailureState FuzzyAgo
    (factory io) None (options io verbose exitStatus) args.

(** The options [RunE] hands to [runView] in a terminal without a run ID. *)
Definition prompting : @ViewOptions unit string :=
  set_Prompt (set_ShowProgress (options terminal false false) true) true.

(** The start of a command: nothing written, no indicator, no call. *)
Definition w0 : World := {| out := ""; progress := false; calls := [] |}.

(** Lines of output, each closed by a line feed. *)
Definition lines (l : list string) : string := concat_map (fun s => s ++ LF) l.

End Sample.

(** ** The properties on the sample repository *)

Import Sample.

(** C2 on the sample: a failed run without jobs, with [--exit-status]. *)
Lemma renderRun_no_jobs_failure_witness :
  Run.Conclusion (a_run "failure") = Failure
  /\ render (options pipe false true) (a_run "failure") [] [sad_annotation] w0 =
       (Some SilentError,
        {| out := lines [""; "X trunk successful · 3"; "Triggered via push some time ago"; "";
                         "X This run likely failed because of a workflow file issue."; "";
                         "For more information, see: runs/3"];
           progress := false; calls := [] |}).
Proof.
  split; [reflexivity |].
  exact (renderRun_no_jobs_failure Symbol AnnotationSymbol IsFailureState FuzzyAgo
           (options pipe false true) (a_run "failure") [sad_annotation] w0 eq_refl).
Defined.

(** C3 on the sample: without [--verbose] the job that succeeded shows no
    step and the job that failed shows its two steps, in order. *)
Lemma renderRun_job_steps_witness :
  workflow_issue (a_run "success") [cool_job; sad_job] = false
  /\ out (snd (render (options pipe false false) (a_run "success") [cool_job; sad_job]
                 [sad_annotation] w0)) =
       lines [""; "+ trunk successful · 3"; "Triggered via push some time ago"; "";
              "JOBS";
              "+ cool job (ID 10)";
              "X sad job (ID 20)";
              "  + barf the quux";
              "  X quux the barf";
              "";
              "ANNOTATIONS";
              "X the job is sad";
              "sad job: blaze.py#420";
              "";
              "";
              "For more information about a job, try: gh job view <job-id>";
              "view this run on GitHub: runs/3"].
Proof.
  split; [reflexivity |].
  exact (renderRun_job_steps Symbol AnnotationSymbol IsFailureState FuzzyAgo
           (options pipe false false) (a_run "success") [cool_job; sad_job]
           [sad_annotation] w0 eq_refl).
Defined.

(** C4 on the sample. In a terminal, [gh run view 3] starts the indicator;
    when the run fetch, the jobs fetch or an annotations fetch then fails,
    the command returns its error with the indicator still running. *)
Theorem runView_error_returns_with_indicator_running :
  progress w0 = false
  /\ command GetRunFails terminal false false ["3"] w0 =
       (Some (Errorf "failed to get run: %w" (errors_New "HTTP 404")),
        {| out := ""; progress := true;
           calls := [CallHttpClient; CallBaseRepo; CallGetRun "3"] |})
  /\ command GetJobsFails terminal false false ["3"] w0 =
       (Some (Errorf "failed to get jobs: %w" (errors_New "HTTP 500")),
        {| out := ""; progress := true;
           calls := [CallHttpClient; CallBaseRepo; CallGetRun "3";
                     CallGetJobs (a_run "failure")] |})
  /\ command SadJobAnnotationsFail terminal false false ["3"] w0 =
       (Some (Errorf "failed to get annotations: %w" (errors_New "HTTP 502")),
        {| out := ""; progress := true;
           calls := [CallHttpClient; CallBaseRepo; CallGetRun "3";
                     CallGetJobs (a_run "failure");
                     CallGetAnnotations cool_job; CallGetAnnotations sad_job] |}).
Proof.
  repeat split.
Qed.

(** C5 on the sample: the annotations of the first job are fetched, the
    fetch for the second job fails. *)
Lemma runView_annotations_fail_fast_witness :
  fst (view SadJobAnnotationsFail (options terminal false false) w0) =
    Some (Errorf "failed to get annotations: %w" (errors_New "HTTP 502"))
  /\ out (snd (view SadJobAnnotationsFail (options terminal false false) w0)) = ""
  /\ calls (snd (view SadJobAnnotationsFail (options terminal false false) w0)) =
       [CallHttpClient; CallBaseRepo; CallGetRun "3"; CallGetJobs (a_run "failure");
        CallGetAnnotations cool_job; CallGetAnnotations sad_job].
Proof.
  refine (runView_annotations_fail_fast NewClientFromHTTP
            (PromptForRun SadJobAnnotationsFail) (GetRun SadJobAnnotationsFail)
            (GetJobs SadJobAnnotationsFail) (GetAnnotations SadJobAnnotationsFail)
            Symbol AnnotationSymbol IsFailureState FuzzyAgo
            (options terminal false false) tt "OWNER/REPO" "3" (a_run "failure")
            [cool_job] sad_job [] (errors_New "HTTP 502") w0
            eq_refl eq_refl eq_refl eq_refl eq_refl _ eq_refl).
  intros j [<- | []]. exists [sad_annotation]. reflexivity.
Defined.

(** C6 on the sample: standard output is a pipe and no run ID is given. *)
Lemma RunE_requires_run_id_witness :
  IOStreams.IsStdoutTTY pipe && IOStreams.IsStdinTTY pipe = false
  /\ command AllSucceed pipe false false [] w0 =
       (Some (FlagError (errors_New "expected a run ID")), w0).
Proof.
  split; [reflexivity |].
  exact (RunE_requires_run_id NewClientFromHTTP (PromptForRun AllSucceed)
           (GetRun AllSucceed) (GetJobs AllSucceed) (GetAnnotations AllSucceed)
           Symbol AnnotationSymbol IsFailureState FuzzyAgo
           (factory pipe) None (options pipe false false) w0 eq_refl).
Defined.

(** C7 refuted as stated: the error of the run prompt comes back without
    any context around it. *)
Lemma prompt_error_is_not_wrapped :
  fails_at NewClientFromHTTP (PromptForRun PromptFails) (GetRun PromptFails)
    (GetJobs PromptFails) (GetAnnotations PromptFails)
    prompting PromptStage (errors_New "could not prompt: cancelled")
  /\ ~ exists format,
         fst (view PromptFails prompting w0) =
           Some (Errorf format (errors_New "could not prompt: cancelled")).
Proof.
  split.
  - now apply (fails_Prompt _ _ _ _ _ prompting tt "OWNER/REPO").
  - intros [format H]. vm_compute in H. discriminate H.
Qed.

(** C7 on the sample: the annotations of the first job are fetched, the
    fetch for the second job fails; each was asked once and the failing
    fetch is the last call. *)
Lemma runView_error_propagation_witness :
  let opts := options terminal false false in
  let err := errors_New "HTTP 502" in
  fst (view SadJobAnnotationsFail opts w0) =
    Some (Errorf "failed to get annotations: %w" err)
  /\ out (snd (view SadJobAnnotationsFail opts w0)) = out w0
  /\ exists before c,
       calls (snd (view SadJobAnnotationsFail opts w0)) = (calls w0 ++ before ++ [c])%list
       /\ stage_of c = GetAnnotationsStage
       /\ (forall s', s' <> GetAnnotationsStage ->
                      (count_stage s' (before ++ [c]) <= 1)%nat)
       /\ calls_until_failure NewClientFromHTTP (PromptForRun SadJobAnnotationsFail)
            (GetRun SadJobAnnotationsFail) (GetJobs SadJobAnnotationsFail)
            (GetAnnotations SadJobAnnotationsFail)
            opts GetAnnotationsStage err (before ++ [c]).
Proof.
  refine (runView_error_propagation NewClientFromHTTP
            (PromptForRun SadJobAnnotationsFail) (GetRun SadJobAnnotationsFail)
            (GetJobs SadJobAnnotationsFail) (GetAnnotations SadJobAnnotationsFail)
            Symbol AnnotationSymbol IsFailureState FuzzyAgo
            (options terminal false false) GetAnnotationsStage (errors_New "HTTP 502") w0 _).
  apply (fails_GetAnnotations _ _ _ _ _ _ tt "OWNER/REPO" "3" (a_run "failure")
           [cool_job] sad_job []); try reflexivity.
  intros j [<- | []]. exists [sad_annotation]. reflexivity.
Defined.

(** C8 refuted as stated: the output does not start with a header line
    that has the run name right after the branch. *)
Lemma header_without_separator_refuted :
  ~ exists rest,
      out (snd (render (options pipe false false) (a_run "success") [cool_job; sad_job]
                  [sad_annotation] w0)) =
        out w0 ++ LF ++ spec_run_header_line Symbol plain (a_run "success") ++ LF ++ rest.
Proof.
  intros [rest H]. vm_compute in H. discriminate H.
Qed.

(** C9 refuted as stated: with one annotation the output is not the one
    with exactly two lines for it. *)
Lemma annotation_two_lines_refuted :
  let opts := options pipe false false in
  let run := a_run "success" in
  out (snd (render opts run [cool_job; sad_job] [sad_annotation] w0)) <>
    out w0 ++ header_text Symbol FuzzyAgo opts run ++
    "JOBS" ++ LF ++
    concat_map (job_text Symbol IsFailureState opts) [cool_job; sad_job] ++
    annotations_section plain (spec_annotation_text AnnotationSymbol) [sad_annotation] ++
    footer_text plain run.
Proof.
  intros opts run H. vm_compute in H. discriminate H.
Qed.

(** C9 on the sample: one annotation, followed by an empty line. *)
Lemma renderRun_annotations_witness :
  workflow_issue (a_run "success") [cool_job; sad_job] = false
  /\ out (snd (render (options pipe false false) (a_run "success") [cool_job; sad_job]
                 [sad_annotation] w0)) =
       lines [""; "+ trunk successful · 3"; "Triggered via push some time ago"; "";
              "JOBS"; "+ cool job (ID 10)"; "X sad job (ID 20)";
              "  + barf the quux"; "  X quux the barf"]
       ++ lines [""; "ANNOTATIONS"; "X the job is sad"; "sad job: blaze.py#420"; ""]
       ++ lines [""; "For more information about a job, try: gh job view <job-id>";
                 "view this run on GitHub: runs/3"].
Proof.
  split; [reflexivity |].
  exact (renderRun_annotations Symbol AnnotationSymbol IsFailureState FuzzyAgo
           (options pipe false false) (a_run "success") [cool_job; sad_job]
           [sad_annotation] w0 eq_refl).
Defined.

(** C10 on the sample: a run without jobs that timed out, with
    [--exit-status]. *)
Lemma renderRun_no_jobs_other_conclusion_witness :
  Run.Conclusion (a_run "timed_out") <> Failure
  /\ render (options pipe false true) (a_run "timed_out") [] [] w0 =
       (Some SilentError,
        {| out := lines [""; "X trunk successful · 3"; "Triggered via push some time ago"; "";
                         "JOBS"; "";
                         "For more information about a job, try: gh job view <job-id>";
                         "view this run on GitHub: runs/3"];
           progress := false; calls := [] |}).
Proof.
  assert (Hc : Run.Conclusion (a_run "timed_out") <> Failure) by discriminate.
  split; [exact Hc |].
  exact (renderRun_no_jobs_other_conclusion Symbol AnnotationSymbol IsFailureState FuzzyAgo
           (options pipe false true) (a_run "timed_out") [] w0 Hc).
Defined.

(** ** Further samples *)

(** More stand-ins: a run without jobs, a colour scheme that marks what it
    styles, a run whose URL holds a percent sign, and a factory that cannot
    resolve the repository. *)
Module Fixtures.

Local Open Scope Z_scope.

Definition GetJobs_none (client : unit) (repo : string) (run : Run.t)
    : result (list Job.t) := Ok [].

Definition view_without_jobs :=
  runView NewClientFromHTTP (PromptForRun AllSucceed) (GetRun AllSucceed) GetJobs_none
    (GetAnnotations AllSucceed) Symbol AnnotationSymbol IsFailureState FuzzyAgo.

Definition marked : ColorScheme.t :=
  {| ColorScheme.Bold := fun s => "*" ++ s ++ "*";
     ColorScheme.Gray := fun s => "[gray]" ++ s ++ "[/gray]";
     ColorScheme.Cyan := fun s => s;
     ColorScheme.FailureIcon := "X" |}.

Definition marked_pipe : IOStreams.t :=
  {| IOStreams.IsStdoutTTY := false;
     IOStreams.IsStdinTTY := true;
     IOStreams.ColorScheme := marked |}.

Definition percent_run : Run.t :=
  {| Run.ID := 7; Run.Name := "nightly"; Run.HeadBranch := "main";
     Run.Event := "schedule"; Run.CreatedAt := 0; Run.Status := "completed";
     Run.Conclusion := "success"; Run.URL := "runs/7?attempt=2%201" |}.

Definition unresolved : @Factory unit string :=
  {| Factory_IOStreams := pipe;
     Factory_HttpClient := fun _ => Ok tt;
     Factory_BaseRepo := fun _ => Err (errors_New "no git remotes found") |}.

(** The annotations the sample returns for a job when all succeeds. *)
Definition annotations_of (job : Job.t) : list Annotation.t :=
  if Job.ID job =? 20 then [sad_annotation] else [].

End Fixtures.
Import Fixtures.

(** X1 on the sample: [gh run view 3] without [--exit-status] returns nil. *)
Lemma runView_nil_only_after_success_witness :
  exists runID run jobs annotations,
    retrieves NewClientFromHTTP (PromptForRun AllSucceed) (GetRun AllSucceed)
      (GetJobs AllSucceed) (GetAnnotations AllSucceed)
      (options pipe false false) runID run jobs annotations
    /\ ExitStatus (options pipe false false) && IsFailureState (Run.Conclusion run) = false.
Proof.
  exact (runView_nil_only_after_success NewClientFromHTTP (PromptForRun AllSucceed)
           (GetRun AllSucceed) (GetJobs AllSucceed) (GetAnnotations AllSucceed)
           Symbol AnnotationSymbol IsFailureState FuzzyAgo
           (options pipe false false) w0 eq_refl).
Defined.

(** X2 on the sample. *)
Lemma runView_never_prompts_unasked_witness :
  exists new,
    calls (snd (view AllSucceed (options pipe false false) w0)) = (calls w0 ++ new)%list
    /\ count_stage PromptStage new = 0%nat.
Proof.
  exact (runView_never_prompts_unasked NewClientFromHTTP (PromptForRun AllSucceed)
           (GetRun AllSucceed) (GetJobs AllSucceed) (GetAnnotations AllSucceed)
           Symbol AnnotationSymbol IsFailureState FuzzyAgo
           (options pipe false false) w0 eq_refl).
Defined.

(** X3 on the sample: the jobs fetch fails and progress is not shown. *)
Lemma runView_indicator_untouched_witness :
  progress (snd (view GetJobsFails (options pipe false false) w0)) = progress w0.
Proof.
  exact (runView_indicator_untouched NewClientFromHTTP (PromptForRun GetJobsFails)
           (GetRun GetJobsFails) (GetJobs GetJobsFails) (GetAnnotations GetJobsFails)
           Symbol AnnotationSymbol IsFailureState FuzzyAgo
           (options pipe false false) w0 eq_refl).
Defined.

(** X5 on the sample: the prompt fails in a terminal. *)
Lemma runView_early_failure_before_indicator_witness :
  ShowProgress prompting = true
  /\ progress (snd (view PromptFails prompting w0)) = progress w0
  /\ out (snd (view PromptFails prompting w0)) = out w0.
Proof.
  split; [reflexivity |].
  refine (runView_early_failure_before_indicator NewClientFromHTTP
            (PromptForRun PromptFails) (GetRun PromptFails) (GetJobs PromptFails)
            (GetAnnotations PromptFails) Symbol AnnotationSymbol IsFailureState FuzzyAgo
            prompting PromptStage (errors_New "could not prompt: cancelled") w0 _ _).
  - now apply (fails_Prompt _ _ _ _ _ prompting tt "OWNER/REPO").
  - right. right. reflexivity.
Defined.

(** X6 on the sample: the first job has no annotation, the second has one. *)
Lemma runView_flattens_annotations_witness :
  flat_map annotations_of [cool_job; sad_job] = [sad_annotation]
  /\ view AllSucceed (options terminal false false) w0 =
       render (options terminal false false) (a_run "failure") [cool_job; sad_job]
         (flat_map annotations_of [cool_job; sad_job])
         {| out := ""; progress := false;
            calls := [CallHttpClient; CallBaseRepo; CallGetRun "3";
                      CallGetJobs (a_run "failure");
                      CallGetAnnotations cool_job; CallGetAnnotations sad_job] |}.
Proof.
  split; [reflexivity |].
  refine (runView_flattens_annotations NewClientFromHTTP (PromptForRun AllSucceed)
            (GetRun AllSucceed) (GetJobs AllSucceed) (GetAnnotations AllSucceed)
            Symbol AnnotationSymbol IsFailureState FuzzyAgo
            (options terminal false false) tt "OWNER/REPO" "3" (a_run "failure")
            [cool_job; sad_job] annotations_of w0
            eq_refl eq_refl eq_refl eq_refl eq_refl _).
  intros j _. unfold GetAnnotations, annotations_of.
  destruct (Job.ID j =? 20)%Z; reflexivity.
Defined.

(** X7 on the sample: the failed run has no jobs. *)
Lemma runView_run_without_jobs_witness :
  view_without_jobs (options pipe false true) w0 =
    (Some SilentError,
     {| out := lines [""; "X trunk successful · 3"; "Triggered via push some time ago"; "";
                      "X This run likely failed because of a workflow file issue."; "";
                      "For more information, see: runs/3"];
        progress := false;
        calls := [CallHttpClient; CallBaseRepo; CallGetRun "3";
                  CallGetJobs (a_run "failure")] |}).
Proof.
  exact (runView_run_without_jobs NewClientFromHTTP (PromptForRun AllSucceed)
           (GetRun AllSucceed) GetJobs_none (GetAnnotations AllSucceed)
           Symbol AnnotationSymbol IsFailureState FuzzyAgo
           (options pipe false true) tt "OWNER/REPO" "3" (a_run "failure") w0
           eq_refl eq_refl eq_refl eq_refl eq_refl).
Defined.

(** X9 on the sample: with and without [--exit-status]. *)
Lemma renderRun_output_depends_on_witness :
  ExitStatus (options pipe false false) <> ExitStatus (options pipe false true)
  /\ snd (render (options pipe false false) (a_run "failure") [cool_job; sad_job]
            [sad_annotation] w0) =
     snd (render (options pipe false true) (a_run "failure") [cool_job; sad_job]
            [sad_annotation] w0).
Proof.
  split; [discriminate |].
  exact (renderRun_output_depends_on Symbol AnnotationSymbol IsFailureState FuzzyAgo
           (options pipe false false) (options pipe false true) (a_run "failure")
           [cool_job; sad_job] [sad_annotation] w0 eq_refl eq_refl eq_refl).
Defined.

(** X10 on the sample: a URL with a percent sign under a gray that marks
    its text. *)
Lemma renderRun_last_line_witness :
  out (snd (render (options marked_pipe false false) percent_run [] [] w0)) =
    lines [""; "+ *main* nightly · 7"; "Triggered via schedule some time ago"; "";
           "*JOBS*"; "";
           "For more information about a job, try: gh job view <job-id>"]
    ++ "[gray]view this run on GitHub: runs/7?attempt=2%201" ++ LF ++ "[/gray]".
Proof.
  exact (renderRun_last_line Symbol AnnotationSymbol IsFailureState FuzzyAgo
           (options marked_pipe false false) percent_run [] [] w0 "[gray]" "[/gray]"
           eq_refl (fun s => eq_refl) eq_refl eq_refl).
Defined.

(** X11 on the sample: [gh run view 3] through a pipe. *)
Lemma RunE_fetches_the_argument_witness :
  exists rest,
    calls (snd (command AllSucceed pipe false false ["3"] w0)) =
      (calls w0 ++ [CallHttpClient; CallBaseRepo; CallGetRun "3"] ++ rest)%list.
Proof.
  exact (RunE_fetches_the_argument NewClientFromHTTP (PromptForRun AllSucceed)
           (GetRun AllSucceed) (GetJobs AllSucceed) (GetAnnotations AllSucceed)
           Symbol AnnotationSymbol IsFailureState FuzzyAgo
           (factory pipe) (options pipe false false) tt "OWNER/REPO" "3" [] w0
           eq_refl eq_refl eq_refl).
Defined.

(** X12 on the sample: [gh run view] in a terminal. *)
Lemma RunE_fetches_the_prompted_run_witness :
  exists rest,
    calls (snd (command AllSucceed terminal false false [] w0)) =
      (calls w0 ++ [CallHttpClient; CallBaseRepo; CallPromptForRun; CallGetRun "3"] ++
       rest)%list.
Proof.
  exact (RunE_fetches_the_prompted_run NewClientFromHTTP (PromptForRun AllSucceed)
           (GetRun AllSucceed) (GetJobs AllSucceed) (GetAnnotations AllSucceed)
           Symbol AnnotationSymbol IsFailureState FuzzyAgo
           (factory terminal) (options terminal false false) tt "OWNER/REPO" "3" w0
           eq_refl eq_refl eq_refl eq_refl).
Defined.

(** X13 on the sample: the options can resolve the repository, the factory
    cannot. *)
Lemma RunE_uses_factory_BaseRepo_witness :
  BaseRepo (options pipe false false) tt = Ok "OWNER/REPO"
  /\ NewCmdView_RunE NewClientFromHTTP (PromptForRun AllSucceed) (GetRun AllSucceed)
       (GetJobs AllSucceed) (GetAnnotations AllSucceed)
       Symbol AnnotationSymbol IsFailureState FuzzyAgo
       unresolved None (options pipe false false) ["3"] w0 =
     (Some (Errorf "failed to determine base repo: %w" (errors_New "no git remotes found")),
      {| out := ""; progress := false; calls := [CallHttpClient; CallBaseRepo] |}).
Proof.
  split; [reflexivity |].
  refine (RunE_uses_factory_BaseRepo NewClientFromHTTP (PromptForRun AllSucceed)
            (GetRun AllSucceed) (GetJobs AllSucceed) (GetAnnotations AllSucceed)
            Symbol AnnotationSymbol IsFailureState FuzzyAgo
            unresolved (options pipe false false) tt
            (errors_New "no git remotes found") ["3"] w0 eq_refl eq_refl _).
  left. discriminate.
Defined.

(** X14 on the sample: the run fetch fails while the output is a pipe. *)
Lemma RunE_no_indicator_without_terminal_witness :
  progress (snd (command GetRunFails pipe false false ["3"] w0)) = progress w0.
Proof.
  exact (RunE_no_indicator_without_terminal NewClientFromHTTP (PromptForRun GetRunFails)
           (GetRun GetRunFails) (GetJobs GetRunFails) (GetAnnotations GetRunFails)
           Symbol AnnotationSymbol IsFailureState FuzzyAgo
           (factory pipe) (options pipe false false) ["3"] w0 eq_refl).
Defined.
